(** * easy_curl: a blocking HTTP client over libcurl's "easy" interface

    Shallow embedding of [src/easy_curl.h] and [src/easy_curl.cpp] and the
    properties of request execution and error translation.

    libcurl itself is not part of the repository.  It is represented by a
    [Transport]: the answers of [curl_easy_strerror], [curl_easy_setopt],
    [curl_easy_perform] and [curl_easy_getinfo].  The options stored on an
    easy handle are a finite map that [curl_easy_setopt] inserts into and that
    nothing else changes, as libcurl documents ("options are valid for all
    forthcoming transfers performed using this handle"); the client keeps
    one handle for its whole life.

    A [std::string] is a sequence of bytes ([string]); what crosses the C
    interface is its C string ([c_str]).  [long], [int] and [size_t] are
    integers ([Z]) with the conversions between them written out.
    [DoRequest] is a sequence of statements over the state it touches, with
    early exit for [return] and an outcome of its own for the one expression
    whose behaviour C++ leaves undefined. *)

From stdpp Require Import gmap strings list fin_maps.

Local Open Scope Z_scope.

(** ** C strings *)

Module CString.

Definition NUL : Ascii.ascii := Ascii.zero.

(** What a [const char*] reader sees of a byte sequence: the bytes before
    the first NUL.  This is [std::string::c_str()] followed by a C read. *)
Fixpoint c_str (s : string) : string :=
  match s with
  | EmptyString => EmptyString
  | String a r => if Ascii.eqb a NUL then EmptyString else String a (c_str r)
  end.

Definition strlen (s : string) : Z := Z.of_nat (String.length (c_str s)).

(** A byte sequence without an embedded NUL. *)
Fixpoint nul_free (s : string) : bool :=
  match s with
  | EmptyString => true
  | String a r => negb (Ascii.eqb a NUL) && nul_free r
  end.

(** [lit + n] for a string literal [lit] and an integer [n], read back as a C
    string: pointer arithmetic.  The literal occupies [length lit + 1]
    bytes (the last one is the terminating NUL), so offsets
    [0 .. length lit] point into it; any other offset leaves the array and
    reading through it has no defined behaviour ([None]). *)
Definition literal_plus (lit : string) (n : Z) : option string :=
  if (0 <=? n) && (n <=? Z.of_nat (String.length lit))
  then Some (c_str (String.substring (Z.to_nat n)
                      (String.length lit - Z.to_nat n) lit))
  else None.

(** [needle] occurs in [hay] (used to state what a message contains). *)
Fixpoint contains (needle hay : string) : bool :=
  String.prefix needle hay ||
  match hay with
  | EmptyString => false
  | String _ r => contains needle r
  end.

End CString.
Import CString.

(** ** Error model ([easy_curl.h]) *)

Inductive ErrorCode :=
  | kOk | kNotFound | kCorruption | kNotSupported | kInvalidArgument
  | kIOError | kAlreadyPresent | kRuntimeError | kNetworkError
  | kIllegalState | kNotAuthorized | kAborted | kRemoteError
  | kServiceUnavailable | kTimedOut | kUninitialized
  | kConfigurationError | kIncomplete | kEndOfFile.

#[global] Instance ErrorCode_eq_dec : EqDecision ErrorCode.
Proof. solve_decision. Defined.

(** The numeric value of each enumerator. *)
Definition ErrorCode_value (c : ErrorCode) : Z :=
  match c with
  | kOk => 0 | kNotFound => 1 | kCorruption => 2 | kNotSupported => 3
  | kInvalidArgument => 4 | kIOError => 5 | kAlreadyPresent => 6
  | kRuntimeError => 7 | kNetworkError => 8 | kIllegalState => 9
  | kNotAuthorized => 10 | kAborted => 11 | kRemoteError => 12
  | kServiceUnavailable => 13 | kTimedOut => 14 | kUninitialized => 15
  | kConfigurationError => 16 | kIncomplete => 17 | kEndOfFile => 18
  end.

Record Error := mkError { code : ErrorCode; msg : string }.

#[global] Instance Error_eq_dec : EqDecision Error.
Proof. solve_decision. Defined.

(** [Error(ErrorCode code)]: the message is default-constructed. *)
Definition Error_of (c : ErrorCode) : Error := mkError c "".

(** ** The libcurl interface used by the client *)

(** [CURLcode]; the two values the client distinguishes are those of
    [curl/curl.h]. *)
Definition CURLcode := Z.
Definition CURLE_OK : CURLcode := 0.
Definition CURLE_OPERATION_TIMEDOUT : CURLcode := 28.

Inductive CURLoption :=
  | CURLOPT_ERRORBUFFER | CURLOPT_HTTPAUTH | CURLOPT_USERNAME
  | CURLOPT_PASSWORD | CURLOPT_VERBOSE | CURLOPT_FAILONERROR
  | CURLOPT_HTTPHEADER | CURLOPT_URL | CURLOPT_HEADER
  | CURLOPT_WRITEFUNCTION | CURLOPT_WRITEDATA | CURLOPT_POSTFIELDS
  | CURLOPT_NOSIGNAL | CURLOPT_TIMEOUT | CURLOPT_DNS_SERVERS.

#[global] Instance CURLoption_eq_dec : EqDecision CURLoption.
Proof. solve_decision. Defined.

#[global] Instance CURLoption_countable : Countable CURLoption.
Proof.
  refine (inj_countable'
    (fun o => match o with
       | CURLOPT_ERRORBUFFER => 0 | CURLOPT_HTTPAUTH => 1
       | CURLOPT_USERNAME => 2 | CURLOPT_PASSWORD => 3
       | CURLOPT_VERBOSE => 4 | CURLOPT_FAILONERROR => 5
       | CURLOPT_HTTPHEADER => 6 | CURLOPT_URL => 7 | CURLOPT_HEADER => 8
       | CURLOPT_WRITEFUNCTION => 9 | CURLOPT_WRITEDATA => 10
       | CURLOPT_POSTFIELDS => 11 | CURLOPT_NOSIGNAL => 12
       | CURLOPT_TIMEOUT => 13 | CURLOPT_DNS_SERVERS => 14
       end%nat)
    (fun n => match n with
       | 0 => CURLOPT_ERRORBUFFER | 1 => CURLOPT_HTTPAUTH
       | 2 => CURLOPT_USERNAME | 3 => CURLOPT_PASSWORD
       | 4 => CURLOPT_VERBOSE | 5 => CURLOPT_FAILONERROR
       | 6 => CURLOPT_HTTPHEADER | 7 => CURLOPT_URL | 8 => CURLOPT_HEADER
       | 9 => CURLOPT_WRITEFUNCTION | 10 => CURLOPT_WRITEDATA
       | 11 => CURLOPT_POSTFIELDS | 12 => CURLOPT_NOSIGNAL
       | 13 => CURLOPT_TIMEOUT | _ => CURLOPT_DNS_SERVERS
       end%nat) _).
  intros []; reflexivity.
Defined.

(** The third argument of [curl_easy_setopt] at the client's call sites.  A
    [char*] argument is recorded with the bytes it points to, up to the
    first NUL, at the time of the call.  libcurl copies these bytes for the
    string options set here, except for [CURLOPT_POSTFIELDS], of which it
    keeps the pointer: the entry stands for the caller's string, and is its
    content for as long as the caller leaves the string alone. *)
Inductive CurlOptValue :=
  | OptLong (v : Z)                (* a long *)
  | OptString (s : string)         (* a C string *)
  | OptSlist (l : list string)     (* a curl_slist*, [[]] for nullptr *)
  | OptErrbuf                      (* the client's errbuf_ *)
  | OptWriteCallback               (* the function WriteCallback *)
  | OptDst.                        (* the caller's destination buffer *)

#[global] Instance CurlOptValue_eq_dec : EqDecision CurlOptValue.
Proof. solve_decision. Defined.

(** [CURLAUTH_BASIC] and [CURLAUTH_ANY] of [curl/curl.h]: bit 0, and every
    bit of an unsigned long except bit 4 ([CURLAUTH_DIGEST_IE]). *)
Definition CURLAUTH_BASIC : Z := Z.shiftl 1 0.
Definition CURLAUTH_ANY : Z := Z.lxor (Z.ones 64) (Z.shiftl 1 4).

Inductive CURLINFO := CURLINFO_NUM_CONNECTS | CURLINFO_RESPONSE_CODE.

(** The options set on an easy handle. *)
Abbreviation Handle := (gmap CURLoption CurlOptValue).

(** [size_t] is 64 bits wide. *)
Definition size_t_wrap (z : Z) : Z := z mod 2 ^ 64.

(** A piece of the response as the transport offers it to the write callback:
    bytes in memory, their number a [size_t]. *)
Record Chunk := mkChunk {
  chunk_bytes : string;
  chunk_fits : (Z.of_nat (String.length chunk_bytes) <? 2 ^ 64) = true
}.

(** What one [curl_easy_perform] does: its return code, the text it leaves in
    the error buffer, and the chunks it offers to the write callback, in
    arrival order (header lines first when [CURLOPT_HEADER] is on). *)
Record PerformResult := {
  pr_code : CURLcode;
  pr_errbuf : string;
  pr_chunks : list Chunk
}.

(** The transport is deterministic: what it does is a function of the options
    on the handle.  (For one call, a transport with a state of its own is the
    function that its state at the time of the call makes of it.) *)
Record Transport := {
  curl_easy_strerror : CURLcode -> string;
  (** the code [curl_easy_setopt] answers; the option is stored when it is
      [CURLE_OK] *)
  setopt_code : CURLoption -> CurlOptValue -> CURLcode;
  (** a transfer, decided by the options on the handle *)
  perform : Handle -> PerformResult;
  (** [curl_easy_getinfo] for a long: return code and the value written *)
  getinfo : Handle -> CURLINFO -> CURLcode * Z
}.

(** ** [TranslateError] and [WriteCallback] ([easy_curl.cpp]) *)

Definition TranslateError (strerror : CURLcode -> string)
    (code : CURLcode) (errbuf : string) : Error :=
  if code =? CURLE_OK then Error_of kOk
  else
    let err_msg := strerror code in
    let err_msg :=
      if negb (strlen errbuf =? 0)
      then err_msg +:+ (": " +:+ c_str errbuf)
      else err_msg in
    if code =? CURLE_OPERATION_TIMEDOUT
    then mkError kTimedOut ("curl timeout" +:+ err_msg)
    else mkError kNetworkError ("curl error" +:+ err_msg).

(** Appends the first [size * nmemb] bytes at [buffer] to the string behind
    [user_ptr] and returns that count. *)
Definition WriteCallback (buffer : string) (size nmemb : Z) (user_ptr : string)
    : string * Z :=
  let real_size := size_t_wrap (size * nmemb) in
  (user_ptr +:+ String.substring 0 (Z.to_nat real_size) buffer, real_size).

(** ** The client object ([easy_curl.h]) *)

(** [enum class CurlAuthType { NONE, BASIC }].  A scoped enumeration has the
    fixed underlying type [int], and its values are all the values of that
    type; [NONE] and [BASIC] are the two that have a name.  The [switch] of
    [DoRequest] has a [default] label for the others. *)
Module CurlAuthType.
Definition t := Z.
Definition NONE : t := 0.
Definition BASIC : t := 1.
End CurlAuthType.

Record EasyCurl := mkEasyCurl {
  curl_ : Handle;
  return_headers_ : bool;
  verbose_ : bool;
  fail_on_http_error_ : bool;
  timeout_secs_ : Z;
  dns_servers_ : string;
  num_connects_ : Z;
  errbuf_ : string;
  username_ : string;
  password_ : string;
  auth_type_ : CurlAuthType.t
}.

(** The constructor, once [curl_global_init] and [curl_easy_init] have
    succeeded: a new handle with the error buffer attached.  [None] is
    [exit(1)].  The bytes of [errbuf_] are whatever the storage held. *)
Definition EasyCurl_new (T : Transport) (storage : string) : option EasyCurl :=
  if setopt_code T CURLOPT_ERRORBUFFER OptErrbuf =? CURLE_OK
  then Some {| curl_ := {[ CURLOPT_ERRORBUFFER := OptErrbuf ]};
               return_headers_ := false; verbose_ := false;
               fail_on_http_error_ := false; timeout_secs_ := -1;
               dns_servers_ := ""; num_connects_ := 0; errbuf_ := storage;
               username_ := ""; password_ := "";
               auth_type_ := CurlAuthType.NONE |}
  else None.

Definition set_return_headers (v : bool) (c : EasyCurl) : EasyCurl :=
  mkEasyCurl (curl_ c) v (verbose_ c) (fail_on_http_error_ c)
    (timeout_secs_ c) (dns_servers_ c) (num_connects_ c) (errbuf_ c)
    (username_ c) (password_ c) (auth_type_ c).

Definition set_timeout (secs : Z) (c : EasyCurl) : EasyCurl :=
  mkEasyCurl (curl_ c) (return_headers_ c) (verbose_ c)
    (fail_on_http_error_ c) secs (dns_servers_ c) (num_connects_ c)
    (errbuf_ c) (username_ c) (password_ c) (auth_type_ c).

Definition set_dns_servers (dns_servers : string) (c : EasyCurl) : EasyCurl :=
  mkEasyCurl (curl_ c) (return_headers_ c) (verbose_ c)
    (fail_on_http_error_ c) (timeout_secs_ c) dns_servers (num_connects_ c)
    (errbuf_ c) (username_ c) (password_ c) (auth_type_ c).

(** [set_auth(auth_type, username, password)] with all three arguments. *)
Definition set_auth (auth_type : CurlAuthType.t) (username password : string)
    (c : EasyCurl) : EasyCurl * Error :=
  (mkEasyCurl (curl_ c) (return_headers_ c) (verbose_ c)
     (fail_on_http_error_ c) (timeout_secs_ c) (dns_servers_ c)
     (num_connects_ c) (errbuf_ c) username password auth_type,
   Error_of kOk).

(** [set_auth(auth_type)]: the omitted arguments take their defaults. *)
Definition set_auth_default (auth_type : CurlAuthType.t) (c : EasyCurl)
    : EasyCurl * Error :=
  set_auth auth_type "" "" c.

Definition set_verbose (v : bool) (c : EasyCurl) : EasyCurl :=
  mkEasyCurl (curl_ c) (return_headers_ c) v (fail_on_http_error_ c)
    (timeout_secs_ c) (dns_servers_ c) (num_connects_ c) (errbuf_ c)
    (username_ c) (password_ c) (auth_type_ c).

Definition set_fail_on_http_error (fail_on_http_error : bool) (c : EasyCurl)
    : EasyCurl :=
  mkEasyCurl (curl_ c) (return_headers_ c) (verbose_ c) fail_on_http_error
    (timeout_secs_ c) (dns_servers_ c) (num_connects_ c) (errbuf_ c)
    (username_ c) (password_ c) (auth_type_ c).

Definition num_connects (c : EasyCurl) : Z := num_connects_ c.

(** Calls of the setters between two requests. *)
Inductive Setter :=
  | SetReturnHeaders (v : bool)
  | SetTimeout (secs : Z)
  | SetDnsServers (dns_servers : string)
  | SetAuth (auth_type : CurlAuthType.t) (username password : string)
  | SetVerbose (v : bool)
  | SetFailOnHttpError (fail_on_http_error : bool).

Definition apply_setter (c : EasyCurl) (s : Setter) : EasyCurl :=
  match s with
  | SetReturnHeaders v => set_return_headers v c
  | SetTimeout secs => set_timeout secs c
  | SetDnsServers dns_servers => set_dns_servers dns_servers c
  | SetAuth auth_type username password =>
      (set_auth auth_type username password c).1
  | SetVerbose v => set_verbose v c
  | SetFailOnHttpError v => set_fail_on_http_error v c
  end.

Definition apply_setters (setters : list Setter) (c : EasyCurl) : EasyCurl :=
  foldl apply_setter c setters.

(** ** Request execution ([easy_curl.cpp]) *)

(** What [DoRequest] reads and writes: the object, the caller's buffer
    [*dst] (an object of its own, not one of the other arguments), the local
    [curl_headers], and a log of the lists handed to
    [curl_slist_free_all]. *)
Record Machine := mkMachine {
  self : EasyCurl;
  dst : string;
  curl_headers : list string;
  released : list (list string)
}.

(** How a call ends: it returns an [Error], or it runs into an operation
    without defined behaviour. *)
Inductive Outcome :=
  | Returned (e : Error)
  | Undefined.

Inductive Flow (A : Type) :=
  | Next (a : A)
  | Exit (o : Outcome).
Arguments Next {A} a.
Arguments Exit {A} o.

(** Statements: state passing with early exit. *)
Definition M (A : Type) : Type := Machine -> Machine * Flow A.

Definition ret {A} (a : A) : M A := fun m => (m, Next a).

Definition bind {A B} (c : M A) (k : A -> M B) : M B := fun m =>
  match c m with
  | (m', Next a) => k a m'
  | (m', Exit o) => (m', Exit o)
  end.

Declare Scope stmt_scope.
Delimit Scope stmt_scope with stmt.
Notation "x <- c ;; k" := (bind c (fun x => k))
  (at level 100, c at next level, right associativity) : stmt_scope.
Notation "c ;; k" := (bind c (fun _ => k))
  (at level 100, right associativity) : stmt_scope.
Local Open Scope stmt_scope.

Definition return_ {A} (e : Error) : M A := fun m => (m, Exit (Returned e)).
Definition undefined {A} : M A := fun m => (m, Exit Undefined).
Definition get : M Machine := fun m => (m, Next m).
Definition this : M EasyCurl := fun m => (m, Next (self m)).
Definition modify (f : Machine -> Machine) : M unit := fun m => (f m, Next tt).
Definition when (b : bool) (c : M unit) : M unit := if b then c else ret tt.

Fixpoint for_each {A} (l : list A) (body : A -> M unit) : M unit :=
  match l with
  | [] => ret tt
  | x :: l' => body x ;; for_each l' body
  end.

(** Assignments to the pieces of the state. *)
Definition with_self (f : EasyCurl -> EasyCurl) (m : Machine) : Machine :=
  mkMachine (f (self m)) (dst m) (curl_headers m) (released m).
Definition with_dst (f : string -> string) (m : Machine) : Machine :=
  mkMachine (self m) (f (dst m)) (curl_headers m) (released m).
Definition with_curl_headers (f : list string -> list string) (m : Machine)
    : Machine :=
  mkMachine (self m) (dst m) (f (curl_headers m)) (released m).
Definition with_released (f : list (list string) -> list (list string))
    (m : Machine) : Machine :=
  mkMachine (self m) (dst m) (curl_headers m) (f (released m)).

Definition with_curl (f : Handle -> Handle) (c : EasyCurl) : EasyCurl :=
  mkEasyCurl (f (curl_ c)) (return_headers_ c) (verbose_ c)
    (fail_on_http_error_ c) (timeout_secs_ c) (dns_servers_ c)
    (num_connects_ c) (errbuf_ c) (username_ c) (password_ c) (auth_type_ c).
Definition with_errbuf (f : string -> string) (c : EasyCurl) : EasyCurl :=
  mkEasyCurl (curl_ c) (return_headers_ c) (verbose_ c)
    (fail_on_http_error_ c) (timeout_secs_ c) (dns_servers_ c)
    (num_connects_ c) (f (errbuf_ c)) (username_ c) (password_ c)
    (auth_type_ c).
Definition with_num_connects (v : Z) (c : EasyCurl) : EasyCurl :=
  mkEasyCurl (curl_ c) (return_headers_ c) (verbose_ c)
    (fail_on_http_error_ c) (timeout_secs_ c) (dns_servers_ c) v (errbuf_ c)
    (username_ c) (password_ c) (auth_type_ c).

(** [errbuf_[0] = 0]. *)
Definition clear_errbuf (b : string) : string :=
  match b with
  | EmptyString => EmptyString
  | String _ r => String NUL r
  end.

(** [static_cast<int>] of a long: reduction to 32 bits, two's complement. *)
Definition static_cast_int (z : Z) : Z := (z + 2 ^ 31) mod 2 ^ 32 - 2 ^ 31.

(** [curl_slist_append(list, s)]: a copy of the C string [s] at the end
    (the allocation is taken to succeed). *)
Definition curl_slist_append (l : list string) (s : string) : list string :=
  l ++ [c_str s].

(** The transport offers each chunk to the write callback as [nmemb] items of
    [size] 1.  [WriteCallback] never answers less than it was offered, so the
    transport is never told to abort. *)
Definition deliver (chunks : list Chunk) (buf : string) : string :=
  foldl (fun b chunk =>
           fst (WriteCallback (chunk_bytes chunk) 1
                  (Z.of_nat (String.length (chunk_bytes chunk))) b))
        buf chunks.

(** Modelled from the spec: [scoped_cleanup.h] is not among the sources.  The
    spec calls the header list "a scoped resource: always released when
    execute returns, on every exit path including early error returns", built
    with "a scope-guard/deferred-release construct": the cleanup runs once,
    when the scope that declares the guard is left, however it is left.  The
    scope here is the rest of the function body. *)
Definition MakeScopedCleanup {A} (cleanup : M unit) (scope : M A) : M A :=
  fun m =>
    match scope m with
    | (m', Exit Undefined) => (m', Exit Undefined)
    | (m', flow) => (fst (cleanup m'), flow)
    end.

Section Request.

Context (T : Transport).

Definition curl_easy_setopt (o : CURLoption) (v : CurlOptValue)
    : M CURLcode := fun m =>
  let rc := setopt_code T o v in
  if rc =? CURLE_OK
  then (with_self (with_curl (insert o v)) m, Next rc)
  else (m, Next rc).

(** The transfer writes its diagnostic where [CURLOPT_ERRORBUFFER] points
    and hands every chunk to the write function with the write data
    pointer; without a write function of its own it writes to stdout. *)
Definition curl_easy_perform : M CURLcode := fun m =>
  let h := curl_ (self m) in
  let r := perform T h in
  let m1 :=
    if decide (h !! CURLOPT_ERRORBUFFER = Some OptErrbuf)
    then with_self (with_errbuf (fun _ => pr_errbuf r)) m
    else m in
  let m2 :=
    if decide (h !! CURLOPT_WRITEFUNCTION = Some OptWriteCallback
               /\ h !! CURLOPT_WRITEDATA = Some OptDst)
    then with_dst (deliver (pr_chunks r)) m1
    else m1 in
  (m2, Next (pr_code r)).

(** [curl_easy_getinfo(curl_, info, &val)]: the code, and [val]. *)
Definition curl_easy_getinfo (info : CURLINFO) : M (CURLcode * Z) := fun m =>
  (m, Next (getinfo T (curl_ (self m)) info)).

(** The macro [CURL_RETURN_NOT_OK(expr)]. *)
Definition CURL_RETURN_NOT_OK (expr : M CURLcode) : M unit :=
  rc <- expr ;;
  c <- this ;;
  let error := TranslateError (curl_easy_strerror T) rc (errbuf_ c) in
  if negb (bool_decide (code error = kOk)) then return_ error else ret tt.

Definition DoRequest (url : string) (post_data : option string)
    (headers : list string) : M Empty_set :=
  modify (with_dst (fun _ => "")) ;;
  modify (with_self (with_errbuf clear_errbuf)) ;;
  c <- this ;;
  (if auth_type_ c =? CurlAuthType.BASIC then
     CURL_RETURN_NOT_OK
       (curl_easy_setopt CURLOPT_HTTPAUTH (OptLong CURLAUTH_BASIC))
   else if auth_type_ c =? CurlAuthType.NONE then
     ret tt
   else
     CURL_RETURN_NOT_OK
       (curl_easy_setopt CURLOPT_HTTPAUTH (OptLong CURLAUTH_ANY))) ;;
  when (negb (auth_type_ c =? CurlAuthType.NONE))
    (CURL_RETURN_NOT_OK
       (curl_easy_setopt CURLOPT_USERNAME (OptString (c_str (username_ c)))) ;;
     CURL_RETURN_NOT_OK
       (curl_easy_setopt CURLOPT_PASSWORD (OptString (c_str (password_ c))))) ;;
  when (verbose_ c)
    (CURL_RETURN_NOT_OK (curl_easy_setopt CURLOPT_VERBOSE (OptLong 1))) ;;
  when (fail_on_http_error_ c)
    (CURL_RETURN_NOT_OK (curl_easy_setopt CURLOPT_FAILONERROR (OptLong 1))) ;;
  modify (with_curl_headers (fun _ => [])) ;;
  MakeScopedCleanup
    (m <- get ;; modify (with_released (fun log => log ++ [curl_headers m])))
    (for_each headers (fun header =>
       modify (with_curl_headers (fun l => curl_slist_append l header))) ;;
     m <- get ;;
     CURL_RETURN_NOT_OK
       (curl_easy_setopt CURLOPT_HTTPHEADER (OptSlist (curl_headers m))) ;;
     CURL_RETURN_NOT_OK
       (curl_easy_setopt CURLOPT_URL (OptString (c_str url))) ;;
     when (return_headers_ c)
       (CURL_RETURN_NOT_OK (curl_easy_setopt CURLOPT_HEADER (OptLong 1))) ;;
     CURL_RETURN_NOT_OK
       (curl_easy_setopt CURLOPT_WRITEFUNCTION OptWriteCallback) ;;
     CURL_RETURN_NOT_OK (curl_easy_setopt CURLOPT_WRITEDATA OptDst) ;;
     match post_data with
     | Some data =>
         CURL_RETURN_NOT_OK
           (curl_easy_setopt CURLOPT_POSTFIELDS (OptString (c_str data)))
     | None => ret tt
     end ;;
     when (0 <? timeout_secs_ c)
       (CURL_RETURN_NOT_OK (curl_easy_setopt CURLOPT_NOSIGNAL (OptLong 1)) ;;
        CURL_RETURN_NOT_OK
          (curl_easy_setopt CURLOPT_TIMEOUT (OptLong (timeout_secs_ c)))) ;;
     when (negb (String.eqb (dns_servers_ c) ""))
       (CURL_RETURN_NOT_OK
          (curl_easy_setopt CURLOPT_DNS_SERVERS
             (OptString (c_str (dns_servers_ c))))) ;;
     CURL_RETURN_NOT_OK curl_easy_perform ;;
     r <- curl_easy_getinfo CURLINFO_NUM_CONNECTS ;;
     CURL_RETURN_NOT_OK (ret (fst r)) ;;
     modify (with_self (with_num_connects (static_cast_int (snd r)))) ;;
     r <- curl_easy_getinfo CURLINFO_RESPONSE_CODE ;;
     CURL_RETURN_NOT_OK (ret (fst r)) ;;
     let val := snd r in
     if (val <? 200) || (val >=? 300) then
       (* "HTTP " + val: a [const char*] plus a [long] *)
       match literal_plus "HTTP " val with
       | Some text => return_ (mkError kRemoteError text)
       | None => undefined
       end
     else return_ (Error_of kOk)).

(** A finished call, as its caller sees it. *)
Record CallResult := mkCallResult {
  client : EasyCurl;
  buffer : string;
  outcome : Outcome;
  slist_frees : list (list string)
}.

Definition call (body : M Empty_set) (obj : EasyCurl) (dst0 : string)
    : CallResult :=
  match body (mkMachine obj dst0 [] []) with
  | (m, Exit o) => mkCallResult (self m) (dst m) o (released m)
  | (_, Next a) => match a with end
  end.

Definition FetchURL (obj : EasyCurl) (url : string) (dst0 : string)
    (headers : list string) : CallResult :=
  call (DoRequest url None headers) obj dst0.

Definition PostToURL (obj : EasyCurl) (url post_data : string)
    (dst0 : string) (headers : list string) : CallResult :=
  call (DoRequest url (Some post_data) headers) obj dst0.

End Request.

(** ** The request as the list of options it sets

    A second description of the configuration steps of [DoRequest], for
    stating what reaches the handle; [DoRequest_unfold] below relates
    it to the code. *)

Abbreviation Setting := (CURLoption * CurlOptValue)%type.

Section Plans.

Context (T : Transport).

(** The settings stored before the first one [curl_easy_setopt] refuses. *)
Fixpoint applied (l : list Setting) : list Setting :=
  match l with
  | [] => []
  | (o, v) :: l' =>
      if setopt_code T o v =? CURLE_OK then (o, v) :: applied l' else []
  end.

(** The code of the first refusal, [CURLE_OK] when there is none. *)
Fixpoint refusal (l : list Setting) : CURLcode :=
  match l with
  | [] => CURLE_OK
  | (o, v) :: l' =>
      if setopt_code T o v =? CURLE_OK then refusal l' else setopt_code T o v
  end.

Definition store (l : list Setting) (h : Handle) : Handle :=
  foldl (fun h s => <[s.1 := s.2]> h) h l.

(** Running a list of [CURL_RETURN_NOT_OK(curl_easy_setopt(...))]. *)
Definition exec_plan (l : list Setting) (m : Machine)
    : Machine * option Error :=
  (with_self (with_curl (store (applied l))) m,
   if refusal l =? CURLE_OK then None
   else Some (TranslateError (curl_easy_strerror T) (refusal l)
                (errbuf_ (self m)))).

(** Lines 120-142: authentication, verbosity, fail-on-error. *)
Definition pre_plan (c : EasyCurl) : list Setting :=
  (if auth_type_ c =? CurlAuthType.BASIC
   then [(CURLOPT_HTTPAUTH, OptLong CURLAUTH_BASIC)]
   else if auth_type_ c =? CurlAuthType.NONE then []
   else [(CURLOPT_HTTPAUTH, OptLong CURLAUTH_ANY)]) ++
  (if negb (auth_type_ c =? CurlAuthType.NONE)
   then [(CURLOPT_USERNAME, OptString (c_str (username_ c)));
         (CURLOPT_PASSWORD, OptString (c_str (password_ c)))]
   else []) ++
  (if verbose_ c then [(CURLOPT_VERBOSE, OptLong 1)] else []) ++
  (if fail_on_http_error_ c then [(CURLOPT_FAILONERROR, OptLong 1)] else []).

(** Lines 153-173: headers, URL, header echo, write target, body, timeout,
    DNS servers. *)
Definition post_plan (c : EasyCurl) (url : string)
    (post_data : option string) (slist : list string) : list Setting :=
  [(CURLOPT_HTTPHEADER, OptSlist slist)] ++
  [(CURLOPT_URL, OptString (c_str url))] ++
  (if return_headers_ c then [(CURLOPT_HEADER, OptLong 1)] else []) ++
  [(CURLOPT_WRITEFUNCTION, OptWriteCallback)] ++
  [(CURLOPT_WRITEDATA, OptDst)] ++
  match post_data with
  | Some data => [(CURLOPT_POSTFIELDS, OptString (c_str data))]
  | None => []
  end ++
  (if 0 <? timeout_secs_ c
   then [(CURLOPT_NOSIGNAL, OptLong 1);
         (CURLOPT_TIMEOUT, OptLong (timeout_secs_ c))]
   else []) ++
  (if negb (String.eqb (dns_servers_ c) "")
   then [(CURLOPT_DNS_SERVERS, OptString (c_str (dns_servers_ c)))]
   else []).

Definition request_plan (c : EasyCurl) (url : string)
    (post_data : option string) (headers : list string) : list Setting :=
  pre_plan c ++ post_plan c url post_data (map c_str headers).

(** Every option of the request is accepted: the call gets as far as
    [curl_easy_perform]. *)
Definition configured (c : EasyCurl) (url : string)
    (post_data : option string) (headers : list string) : bool :=
  refusal (request_plan c url post_data headers) =? CURLE_OK.

(** The handle that [curl_easy_perform] is given in that case. *)
Definition request_handle (c : EasyCurl) (url : string)
    (post_data : option string) (headers : list string) : Handle :=
  store (request_plan c url post_data headers) (curl_ c).

(** Lines 175-184: the transfer and the reading of its results. *)
Definition transfer (m : Machine) : Machine * Outcome :=
  let h := curl_ (self m) in
  let r := perform T h in
  let m1 :=
    if decide (h !! CURLOPT_ERRORBUFFER = Some OptErrbuf)
    then with_self (with_errbuf (fun _ => pr_errbuf r)) m
    else m in
  let m2 :=
    if decide (h !! CURLOPT_WRITEFUNCTION = Some OptWriteCallback
               /\ h !! CURLOPT_WRITEDATA = Some OptDst)
    then with_dst (deliver (pr_chunks r)) m1
    else m1 in
  let translate rc :=
    TranslateError (curl_easy_strerror T) rc (errbuf_ (self m2)) in
  if negb (bool_decide (code (translate (pr_code r)) = kOk))
  then (m2, Returned (translate (pr_code r)))
  else
    let n := getinfo T h CURLINFO_NUM_CONNECTS in
    if negb (bool_decide (code (translate (fst n)) = kOk))
    then (m2, Returned (translate (fst n)))
    else
      let m3 := with_self (with_num_connects (static_cast_int (snd n))) m2 in
      let s := getinfo T h CURLINFO_RESPONSE_CODE in
      if negb (bool_decide (code (translate (fst s)) = kOk))
      then (m3, Returned (translate (fst s)))
      else if (snd s <? 200) || (snd s >=? 300) then
        match literal_plus "HTTP " (snd s) with
        | Some text => (m3, Returned (mkError kRemoteError text))
        | None => (m3, Undefined)
        end
      else (m3, Returned (Error_of kOk)).

(** The state in which [transfer] starts when every option was accepted:
    both buffers cleared, the handle configured, the header list built. *)
Definition ready (obj : EasyCurl) (url : string) (post_data : option string)
    (headers : list string) : Machine :=
  mkMachine
    (with_curl (fun _ => request_handle obj url post_data headers)
       (with_errbuf clear_errbuf obj))
    "" (map c_str headers) [].

(** The scope guard of line 146 fires: [curl_slist_free_all(curl_headers)]. *)
Definition release (m : Machine) : Machine :=
  with_released (fun log => log ++ [curl_headers m]) m.

Definition leave_scope (r : Machine * Outcome) : Machine * Flow Empty_set :=
  match r with
  | (m, Undefined) => (m, Exit Undefined)
  | (m, o) => (release m, Exit o)
  end.

Definition continue_with {A} (r : Machine * option Error)
    (K : Machine -> Machine * Flow A) : Machine * Flow A :=
  match r with
  | (m', None) => K m'
  | (m', Some e) => (m', Exit (Returned e))
  end.

(** The statement [c] sets the options [l], in order, and returns at the
    first refusal. *)
Definition is_plan (c : M unit) (l : list Setting) : Prop :=
  forall m, c m = continue_with (exec_plan l m) (fun m' => (m', Next tt)).

End Plans.

(** The value a list of settings leaves for an option, if it sets it. *)
Fixpoint last_setting (o : CURLoption) (l : list Setting)
    : option CurlOptValue :=
  match l with
  | [] => None
  | (o', v) :: l' =>
      match last_setting o l' with
      | Some v' => Some v'
      | None => if decide (o = o') then Some v else None
      end
  end.

(** The chunks of a response, put together. *)
Definition concat_chunks (chunks : list Chunk) : string :=
  foldr (fun chunk rest => chunk_bytes chunk +:+ rest) "" chunks.

(** ** Sample transports *)

Module Samples.

Definition url_of (h : Handle) : string :=
  match h !! CURLOPT_URL with
  | Some (OptString u) => u
  | _ => ""
  end.

Definition strerror (rc : CURLcode) : string :=
  if rc =? 28 then "Timeout was reached"
  else if rc =? 7 then "Couldn't connect to server"
  else if rc =? 22 then "HTTP response code said error"
  else if rc =? 48 then "An unknown option was passed in to libcurl"
  else "Error".

(** A small deterministic web: [/ok] answers 200 in two chunks, preceded
    by the status line when [CURLOPT_HEADER] is on; [/missing] answers 404,
    which the transport itself reports as a failure when
    [CURLOPT_FAILONERROR] is on; [file:///x] is a transfer without an HTTP
    status; the host [down] refuses connections; anything else never
    answers. *)
Definition web_perform (h : Handle) : PerformResult :=
  let u := url_of h in
  let head (line : Chunk) :=
    match h !! CURLOPT_HEADER with
    | Some (OptLong 1) => [line]
    | _ => []
    end in
  if String.eqb u "http://host/ok" then
    {| pr_code := 0; pr_errbuf := "";
       pr_chunks := head (mkChunk "HTTP/1.1 200 OK; " eq_refl) ++
                    [mkChunk "hello, " eq_refl; mkChunk "world" eq_refl] |}
  else if String.eqb u "http://host/missing" then
    match h !! CURLOPT_FAILONERROR with
    | Some (OptLong 1) =>
        {| pr_code := 22;
           pr_errbuf := "The requested URL returned error: 404";
           pr_chunks := [] |}
    | _ =>
        {| pr_code := 0; pr_errbuf := "";
           pr_chunks := head (mkChunk "HTTP/1.1 404 Not Found; " eq_refl) ++
                        [mkChunk "no such page" eq_refl] |}
    end
  else if String.eqb u "file:///x" then
    {| pr_code := 0; pr_errbuf := "";
       pr_chunks := [mkChunk "contents" eq_refl] |}
  else if String.eqb u "http://down/" then
    {| pr_code := 7; pr_errbuf := "Failed to connect to down port 80";
       pr_chunks := [] |}
  else
    {| pr_code := 28; pr_errbuf := ""; pr_chunks := [] |}.

Definition web_getinfo (h : Handle) (info : CURLINFO) : CURLcode * Z :=
  let u := url_of h in
  match info with
  | CURLINFO_NUM_CONNECTS => (0, 1)
  | CURLINFO_RESPONSE_CODE =>
      if String.eqb u "http://host/ok" then (0, 200)
      else if String.eqb u "http://host/missing" then (0, 404)
      else (0, 0)
  end.

Definition web : Transport :=
  {| curl_easy_strerror := strerror;
     setopt_code := fun _ _ => CURLE_OK;
     perform := web_perform;
     getinfo := web_getinfo |}.

(** The same web behind a libcurl that was built without HTTP
    authentication: [CURLOPT_HTTPAUTH] is an unknown option. *)
Definition web_without_auth : Transport :=
  {| curl_easy_strerror := strerror;
     setopt_code := fun o _ =>
       match o with CURLOPT_HTTPAUTH => 48 | _ => CURLE_OK end;
     perform := web_perform;
     getinfo := web_getinfo |}.

(** A newly constructed client on [web]. *)
Definition fresh : EasyCurl :=
  {| curl_ := {[ CURLOPT_ERRORBUFFER := OptErrbuf ]};
     return_headers_ := false; verbose_ := false;
     fail_on_http_error_ := false; timeout_secs_ := -1;
     dns_servers_ := ""; num_connects_ := 0; errbuf_ := "";
     username_ := ""; password_ := "";
     auth_type_ := CurlAuthType.NONE |}.

End Samples.

(** ** Error translation as the specification words it

    "timeout-specific code -> TimedOut with message "request timed out: " +
    transport-diagnostic; any other non-zero code -> NetworkError with message
    "transport error: " + transport-diagnostic", where the diagnostic is
    "<generic>: <detail>" when detail is non-empty, else <generic> alone. *)

Definition transport_diagnostic (generic detail : string) : string :=
  if String.eqb detail "" then generic else generic +:+ ": " +:+ detail.

Definition TranslateError_spec (strerror : CURLcode -> string)
    (rc : CURLcode) (errbuf : string) : Error :=
  if rc =? CURLE_OK then Error_of kOk
  else if rc =? CURLE_OPERATION_TIMEDOUT then
    mkError kTimedOut
      ("request timed out: " +:+
       transport_diagnostic (strerror rc) (c_str errbuf))
  else
    mkError kNetworkError
      ("transport error: " +:+
       transport_diagnostic (strerror rc) (c_str errbuf)).

(** ** A client in use

    What a caller does with a client between its construction and its
    destruction: setter calls and requests, one after the other, the requests
    into one buffer.  A request without a defined result ends the run. *)

Inductive Op :=
  | Configure (s : Setter)
  | Fetch (url : string) (headers : list string)
  | Post (url post_data : string) (headers : list string).

Section Use.

Context (T : Transport).

Definition step (st : EasyCurl * string) (op : Op)
    : option (EasyCurl * string) :=
  let finish (r : CallResult) :=
    match outcome r with
    | Returned _ => Some (client r, buffer r)
    | Undefined => None
    end in
  match op with
  | Configure s => Some (apply_setter st.1 s, st.2)
  | Fetch url headers => finish (FetchURL T st.1 url st.2 headers)
  | Post url post_data headers =>
      finish (PostToURL T st.1 url post_data st.2 headers)
  end.

Fixpoint run (ops : list Op) (st : EasyCurl * string)
    : option (EasyCurl * string) :=
  match ops with
  | [] => Some st
  | op :: ops' =>
      match step st op with
      | Some st' => run ops' st'
      | None => None
      end
  end.

End Use.

Definition is_post (op : Op) : bool :=
  match op with
  | Post _ _ _ => true
  | _ => false
  end.

(** The setter calls of a run, in order. *)
Fixpoint setters_of (ops : list Op) : list Setter :=
  match ops with
  | [] => []
  | Configure s :: ops' => s :: setters_of ops'
  | _ :: ops' => setters_of ops'
  end.

(** Which member (or members, for [set_auth]) a setter call writes. *)
Inductive SetterKind :=
  | KReturnHeaders | KTimeout | KDnsServers | KAuth | KVerbose
  | KFailOnHttpError.

Definition setter_kind (s : Setter) : SetterKind :=
  match s with
  | SetReturnHeaders _ => KReturnHeaders
  | SetTimeout _ => KTimeout
  | SetDnsServers _ => KDnsServers
  | SetAuth _ _ _ => KAuth
  | SetVerbose _ => KVerbose
  | SetFailOnHttpError _ => KFailOnHttpError
  end.

(** * Properties *)

(** ** Strings and error translation *)

Lemma append_cons a s t : String a s +:+ t = String a (s +:+ t).
Proof. reflexivity. Qed.

Lemma append_nil_r s : s +:+ "" = s.
Proof. induction s as [|a s IH]; [done|]. by rewrite append_cons, IH. Qed.

Lemma append_assoc s1 s2 s3 : (s1 +:+ s2) +:+ s3 = s1 +:+ (s2 +:+ s3).
Proof. induction s1 as [|a s1 IH]; [done|]. by rewrite !append_cons, IH. Qed.

Lemma substring_all s : String.substring 0 (String.length s) s = s.
Proof.
  induction s as [|a s IH]; [done|].
  cbn [String.length String.substring]. by rewrite IH.
Qed.

Lemma c_str_nul_free s : nul_free s = true -> c_str s = s.
Proof.
  induction s as [|a r IH]; cbn; [done|].
  destruct (Ascii.eqb a NUL); cbn; [done|].
  intros H. by rewrite IH.
Qed.

Lemma map_c_str_nul_free l : forallb nul_free l = true -> map c_str l = l.
Proof.
  induction l as [|s l IH]; cbn; [done|].
  intros [Hs Hl]%andb_prop. by rewrite c_str_nul_free, IH.
Qed.

Lemma c_str_clear_errbuf b : c_str (clear_errbuf b) = "".
Proof. by destruct b. Qed.

Lemma TranslateError_c_str strerror rc b1 b2 :
  c_str b1 = c_str b2 ->
  TranslateError strerror rc b1 = TranslateError strerror rc b2.
Proof. intros H. unfold TranslateError, strlen. by rewrite H. Qed.

Lemma TranslateError_refused strerror rc b :
  rc <> CURLE_OK -> code (TranslateError strerror rc b) <> kOk.
Proof.
  intros H. unfold TranslateError.
  destruct (Z.eqb_spec rc CURLE_OK); [done|].
  by destruct (rc =? CURLE_OPERATION_TIMEDOUT).
Qed.

Lemma TranslateError_code_ok strerror rc b :
  code (TranslateError strerror rc b) = kOk <-> rc = CURLE_OK.
Proof.
  split.
  - intros H. destruct (decide (rc = CURLE_OK)) as [|Hne]; [done|].
    by apply (TranslateError_refused strerror rc b) in Hne.
  - by intros ->.
Qed.

Lemma with_self_id m : with_self (with_curl (fun h => h)) m = m.
Proof. by destruct m as [[] ? ? ?]. Qed.

(** The callback takes all of a chunk and says so. *)
Lemma WriteCallback_chunk (chunk : Chunk) buf :
  WriteCallback (chunk_bytes chunk) 1
    (Z.of_nat (String.length (chunk_bytes chunk))) buf =
  (buf +:+ chunk_bytes chunk, Z.of_nat (String.length (chunk_bytes chunk))).
Proof.
  pose proof (chunk_fits chunk) as H. apply Z.ltb_lt in H.
  unfold WriteCallback, size_t_wrap.
  rewrite Z.mul_1_l, Z.mod_small by lia.
  by rewrite Nat2Z.id, substring_all.
Qed.

Lemma deliver_concat chunks buf :
  deliver chunks buf = buf +:+ concat_chunks chunks.
Proof.
  revert buf. unfold deliver.
  induction chunks as [|chunk chunks IH]; intros buf;
    cbn [foldl concat_chunks foldr].
  - by rewrite append_nil_r.
  - rewrite WriteCallback_chunk. cbn [fst].
    rewrite IH. apply append_assoc.
Qed.

(** ** Running lists of settings *)

Section Exec.

Context (T : Transport).

Lemma applied_app l1 l2 :
  applied T (l1 ++ l2) =
  if refusal T l1 =? CURLE_OK
  then applied T l1 ++ applied T l2 else applied T l1.
Proof.
  induction l1 as [|[o v] l1 IH]; cbn; [done|].
  destruct (setopt_code T o v =? CURLE_OK) eqn:E; cbn; [|by rewrite E].
  rewrite IH. by destruct (refusal T l1 =? CURLE_OK).
Qed.

Lemma refusal_app l1 l2 :
  refusal T (l1 ++ l2) =
  if refusal T l1 =? CURLE_OK then refusal T l2 else refusal T l1.
Proof.
  induction l1 as [|[o v] l1 IH]; cbn; [done|].
  destruct (setopt_code T o v =? CURLE_OK) eqn:E; cbn;
    [exact IH|by rewrite E].
Qed.

Lemma applied_all l : refusal T l = CURLE_OK -> applied T l = l.
Proof.
  induction l as [|[o v] l IH]; cbn; [done|].
  destruct (setopt_code T o v =? CURLE_OK) eqn:E.
  - intros H. by rewrite IH.
  - intros H. by rewrite H in E.
Qed.

Lemma store_app l1 l2 h : store (l1 ++ l2) h = store l2 (store l1 h).
Proof. apply foldl_app. Qed.

Lemma exec_plan_app {A} l1 l2 m (K : Machine -> Machine * Flow A) :
  continue_with (exec_plan T (l1 ++ l2) m) K =
  continue_with (exec_plan T l1 m)
    (fun m' => continue_with (exec_plan T l2 m') K).
Proof.
  unfold exec_plan, continue_with. rewrite applied_app, refusal_app.
  destruct (refusal T l1 =? CURLE_OK) eqn:E1; cbv iota; [|by rewrite E1].
  unfold with_self, with_curl.
  cbn [self curl_ errbuf_ dst curl_headers released].
  rewrite store_app.
  by destruct (refusal T l2 =? CURLE_OK).
Qed.

Lemma exec_plan_nil {A} m (K : Machine -> Machine * Flow A) :
  continue_with (exec_plan T [] m) K = K m.
Proof. unfold exec_plan, continue_with. cbn. by rewrite with_self_id. Qed.

Lemma plan_step o v :
  is_plan T (CURL_RETURN_NOT_OK T (curl_easy_setopt T o v)) [(o, v)].
Proof.
  intros m.
  unfold CURL_RETURN_NOT_OK, curl_easy_setopt, bind, this, exec_plan,
    continue_with.
  cbn [applied refusal].
  destruct (setopt_code T o v =? CURLE_OK) eqn:E; cbn.
  - apply Z.eqb_eq in E. rewrite E. reflexivity.
  - rewrite E, with_self_id. apply Z.eqb_neq in E.
    rewrite bool_decide_eq_false_2 by by apply TranslateError_refused.
    reflexivity.
Qed.

Lemma plan_ret : is_plan T (ret tt) [].
Proof. intros m. by rewrite exec_plan_nil. Qed.

Lemma plan_seq c1 c2 l1 l2 :
  is_plan T c1 l1 -> is_plan T c2 l2 -> is_plan T (c1 ;; c2) (l1 ++ l2).
Proof.
  intros H1 H2 m. rewrite exec_plan_app. unfold bind. rewrite H1.
  unfold continue_with at 1 3.
  destruct (exec_plan T l1 m) as [m' [e|]]; [done|].
  apply H2.
Qed.

Lemma plan_cons c1 c2 s l :
  is_plan T c1 [s] -> is_plan T c2 l -> is_plan T (c1 ;; c2) (s :: l).
Proof. apply (plan_seq c1 c2 [s] l). Qed.

Lemma plan_when (b : bool) c l :
  is_plan T c l -> is_plan T (when b c) (if b then l else []).
Proof. destruct b; [done|]. intros _. apply plan_ret. Qed.

Lemma plan_if (b : bool) c1 c2 l1 l2 :
  is_plan T c1 l1 -> is_plan T c2 l2 ->
  is_plan T (if b then c1 else c2) (if b then l1 else l2).
Proof. by destruct b. Qed.

Lemma plan_option {B} (o : option B) (f : B -> M unit)
    (g : B -> list Setting) :
  (forall d, is_plan T (f d) (g d)) ->
  is_plan T (match o with Some d => f d | None => ret tt end)
            (match o with Some d => g d | None => [] end).
Proof. destruct o; [done|]. intros _. apply plan_ret. Qed.

Lemma plan_bind {A} c l1 l2 (k : unit -> M A)
    (K : Machine -> Machine * Flow A) :
  is_plan T c l1 ->
  (forall m, k tt m = continue_with (exec_plan T l2 m) K) ->
  forall m, bind c k m = continue_with (exec_plan T (l1 ++ l2) m) K.
Proof.
  intros H1 H2 m. rewrite exec_plan_app. unfold bind. rewrite H1.
  unfold continue_with at 1 3.
  destruct (exec_plan T l1 m) as [m' [e|]]; [done|].
  apply H2.
Qed.

Lemma plan_bind_last {A} c l (k : unit -> M A)
    (K : Machine -> Machine * Flow A) :
  is_plan T c l ->
  (forall m, k tt m = K m) ->
  forall m, bind c k m = continue_with (exec_plan T l m) K.
Proof.
  intros H1 H2 m. unfold bind. rewrite H1.
  unfold continue_with. destruct (exec_plan T l m) as [m' [e|]]; [done|].
  apply H2.
Qed.

Lemma bind_modify {A} f (k : unit -> M A) m :
  bind (modify f) k m = k tt (f m).
Proof. reflexivity. Qed.

Lemma bind_this {A} (k : EasyCurl -> M A) m : bind this k m = k (self m) m.
Proof. reflexivity. Qed.

Lemma bind_get {A} (k : Machine -> M A) m : bind get k m = k m m.
Proof. reflexivity. Qed.

Lemma for_each_append headers m :
  for_each headers (fun header =>
    modify (with_curl_headers (fun l => curl_slist_append l header))) m =
  (with_curl_headers (fun l => l ++ map c_str headers) m, Next tt).
Proof.
  revert m.
  induction headers as [|x headers IH]; intros m; cbn [for_each map].
  - destruct m. unfold ret, with_curl_headers. cbn. by rewrite app_nil_r.
  - rewrite bind_modify, IH. destruct m.
    unfold with_curl_headers, curl_slist_append.
    cbn. by rewrite <- app_assoc.
Qed.

Lemma MakeScopedCleanup_release {A} (scope : M A) m r :
  scope m = r ->
  MakeScopedCleanup
    (m2 <- get ;;
     modify (with_released (fun log => log ++ [curl_headers m2]))) scope m =
  match r with
  | (m', Exit Undefined) => (m', Exit Undefined)
  | (m', flow) => (release m', flow)
  end.
Proof.
  intros <-. unfold MakeScopedCleanup.
  by destruct (scope m) as [m' [a|[e|]]].
Qed.

(** Lines 175-184 of [DoRequest] are [transfer]. *)
Lemma transfer_unfold m :
  (CURL_RETURN_NOT_OK T (curl_easy_perform T) ;;
   r <- curl_easy_getinfo T CURLINFO_NUM_CONNECTS ;;
   CURL_RETURN_NOT_OK T (ret (fst r)) ;;
   modify (with_self (with_num_connects (static_cast_int (snd r)))) ;;
   r <- curl_easy_getinfo T CURLINFO_RESPONSE_CODE ;;
   CURL_RETURN_NOT_OK T (ret (fst r)) ;;
   let val := snd r in
   if (val <? 200) || (val >=? 300) then
     match literal_plus "HTTP " val with
     | Some text => return_ (mkError kRemoteError text)
     | None => undefined
     end
   else return_ (Error_of kOk)) m =
  (let (m', o) := transfer T m in (m', Exit o) : Machine * Flow Empty_set).
Proof.
  unfold transfer, CURL_RETURN_NOT_OK, curl_easy_perform, curl_easy_getinfo,
    bind, this, modify, ret, return_, undefined.
  cbv zeta.
  set (h := curl_ (self m)).
  set (m1 := if decide (h !! CURLOPT_ERRORBUFFER = Some OptErrbuf)
             then _ else _).
  set (m2 := if decide (_ /\ _) then _ else _).
  assert (Hh : curl_ (self m2) = h).
  { subst m2 m1. repeat case_decide; reflexivity. }
  destruct (negb (bool_decide
    (code (TranslateError _ (pr_code _) _) = kOk))); [done|].
  rewrite Hh.
  destruct (negb (bool_decide
    (code (TranslateError _ (getinfo T h CURLINFO_NUM_CONNECTS).1 _) = kOk)));
    [done|].
  cbn [self with_self with_num_connects curl_ errbuf_].
  rewrite Hh.
  destruct (negb (bool_decide
    (code (TranslateError _ (getinfo T h CURLINFO_RESPONSE_CODE).1 _) = kOk)));
    [done|].
  destruct (_ || _); [|done].
  by destruct (literal_plus _ _).
Qed.

(** [DoRequest], statement by statement, is: clear the two buffers; set the
    options of [pre_plan]; build the header list; set the options of
    [post_plan]; [transfer]; and release the header list on the way out of
    everything that follows its declaration. *)
Lemma DoRequest_unfold url post_data headers m :
  DoRequest T url post_data headers m =
  let m0 := with_self (with_errbuf clear_errbuf) (with_dst (fun _ => "") m) in
  let c := self m0 in
  continue_with (exec_plan T (pre_plan c) m0) (fun m1 =>
    let m2 := with_curl_headers (fun _ => map c_str headers) m1 in
    match exec_plan T (post_plan c url post_data (map c_str headers)) m2 with
    | (m3, Some e) => (release m3, Exit (Returned e))
    | (m3, None) => leave_scope (transfer T m3)
    end).
Proof.
  unfold DoRequest. rewrite !bind_modify, bind_this.
  cbv zeta.
  set (m0 := with_self (with_errbuf clear_errbuf) (with_dst (fun _ => "") m)).
  set (c := self m0).
  unfold pre_plan.
  eapply plan_bind. { eauto using plan_if, plan_step, plan_ret. }
  intros m1.
  eapply plan_bind. { eauto using plan_when, plan_cons, plan_step. }
  clear m1; intros m1.
  eapply plan_bind. { eauto using plan_when, plan_step. }
  clear m1; intros m1.
  eapply plan_bind_last. { eauto using plan_when, plan_step. }
  clear m1; intros m1.
  rewrite bind_modify.
  erewrite MakeScopedCleanup_release; cycle 1.
  { unfold bind at 1. rewrite for_each_append. rewrite bind_get.
    unfold post_plan.
    eapply plan_bind. { apply plan_step. }
    intros m2. eapply plan_bind. { apply plan_step. }
    clear m2; intros m2.
    eapply plan_bind. { eauto using plan_when, plan_step. }
    clear m2; intros m2. eapply plan_bind. { apply plan_step. }
    clear m2; intros m2. eapply plan_bind. { apply plan_step. }
    clear m2; intros m2. eapply plan_bind.
    { apply (plan_option post_data _
               (fun data => [(CURLOPT_POSTFIELDS, OptString (c_str data))])).
      intros d. apply plan_step. }
    clear m2; intros m2.
    eapply plan_bind. { eauto using plan_when, plan_cons, plan_step. }
    clear m2; intros m2.
    eapply plan_bind_last. { eauto using plan_when, plan_step. }
    clear m2; intros m2. apply transfer_unfold. }
  change (exec_plan T _ _) with
    (exec_plan T (post_plan c url post_data (map c_str headers))
       (with_curl_headers (fun _ => map c_str headers) m1)).
  destruct (exec_plan T _ _) as [m3 [e|]]; [reflexivity|].
  unfold continue_with, leave_scope.
  by destruct (transfer T m3) as [m4 [e|]].
Qed.

End Exec.

(** ** A call, as its caller sees it *)

Section Calls.

Context (T : Transport).

(** The transfer touches [*dst], [errbuf_] and [num_connects_] only. *)
Lemma transfer_frame m :
  curl_headers (transfer T m).1 = curl_headers m /\
  released (transfer T m).1 = released m /\
  curl_ (self (transfer T m).1) = curl_ (self m).
Proof.
  unfold transfer. cbv zeta.
  repeat (case_decide || case_match); cbn; done.
Qed.

Lemma call_DoRequest url post_data headers obj dst0 :
  call (DoRequest T url post_data headers) obj dst0 =
  let c := with_errbuf clear_errbuf obj in
  let slist := map c_str headers in
  let pre := pre_plan obj in
  let post := post_plan obj url post_data slist in
  let translate rc :=
    TranslateError (curl_easy_strerror T) rc (errbuf_ c) in
  if negb (refusal T pre =? CURLE_OK) then
    mkCallResult (with_curl (store (applied T pre)) c) ""
      (Returned (translate (refusal T pre))) []
  else if negb (refusal T post =? CURLE_OK) then
    mkCallResult
      (with_curl (store (applied T post)) (with_curl (store pre) c)) ""
      (Returned (translate (refusal T post))) [slist]
  else
    let r := transfer T
      (mkMachine (with_curl (store (pre ++ post)) c) "" slist []) in
    mkCallResult (self r.1) (dst r.1) r.2
      (match r.2 with Undefined => [] | _ => [slist] end).
Proof.
  unfold call. rewrite DoRequest_unfold. cbv zeta.
  change (pre_plan (self _)) with (pre_plan obj).
  change (post_plan (self _)) with (post_plan obj).
  unfold exec_plan, continue_with.
  destruct (Z.eqb_spec (refusal T (pre_plan obj)) CURLE_OK) as [E1|E1];
    [|reflexivity].
  rewrite (applied_all T _ E1).
  destruct (Z.eqb_spec (refusal T (post_plan obj url post_data
    (map c_str headers))) CURLE_OK) as [E2|E2]; [|reflexivity].
  rewrite (applied_all T _ E2).
  cbn [negb]. cbv iota.
  match goal with |- context [leave_scope (transfer T ?m)] =>
    replace m with (mkMachine
      (with_curl (store (pre_plan obj ++ post_plan obj url post_data
         (map c_str headers))) (with_errbuf clear_errbuf obj))
      "" (map c_str headers) [])
  end.
  2: { unfold with_self, with_curl, with_curl_headers, with_errbuf, with_dst.
       cbn. by rewrite store_app. }
  destruct (transfer_frame
    (mkMachine (with_curl (store (pre_plan obj ++ post_plan obj url
       post_data (map c_str headers))) (with_errbuf clear_errbuf obj))
      "" (map c_str headers) [])) as (Hh & Hr & _).
  destruct (transfer T _) as [m4 [e|]]; cbn in Hh, Hr |- *.
  - by rewrite Hh, Hr.
  - by rewrite Hr.
Qed.

End Calls.

(** ** What a list of settings leaves on the handle *)

Lemma lookup_store l h o :
  store l h !! o =
  match last_setting o l with Some v => Some v | None => h !! o end.
Proof.
  revert h. induction l as [|[o' v] l IH]; intros h; [done|].
  change (store ((o', v) :: l) h) with (store l (<[o' := v]> h)).
  rewrite IH. cbn [last_setting].
  destruct (last_setting o l); [done|].
  case_decide as E.
  - subst o'. apply lookup_insert_eq.
  - by apply lookup_insert_ne.
Qed.

Lemma store_idem l h : store l (store l h) = store l h.
Proof.
  apply map_eq. intros o. rewrite !lookup_store.
  by destruct (last_setting o l).
Qed.

Lemma last_setting_app o l1 l2 :
  last_setting o (l1 ++ l2) =
  match last_setting o l2 with
  | Some v => Some v
  | None => last_setting o l1
  end.
Proof.
  induction l1 as [|[o' v] l1 IH]; cbn [app last_setting].
  - by destruct (last_setting o l2).
  - rewrite IH. by destruct (last_setting o l2).
Qed.

(** Case analysis on everything the plan of a request branches on. *)
Ltac plan_cases c post_data :=
  unfold request_plan, pre_plan, post_plan;
  destruct (auth_type_ c =? CurlAuthType.BASIC) eqn:?,
           (auth_type_ c =? CurlAuthType.NONE) eqn:?,
           (verbose_ c) eqn:?, (fail_on_http_error_ c) eqn:?,
           (return_headers_ c) eqn:?, post_data,
           (0 <? timeout_secs_ c) eqn:?,
           (String.eqb (dns_servers_ c) "") eqn:?.

(** The table of what a request sets, option by option. *)
Lemma request_plan_table c url post_data headers :
  let plan := request_plan c url post_data headers in
  last_setting CURLOPT_HTTPAUTH plan =
    (if auth_type_ c =? CurlAuthType.BASIC then Some (OptLong CURLAUTH_BASIC)
     else if auth_type_ c =? CurlAuthType.NONE then None
     else Some (OptLong CURLAUTH_ANY)) /\
  last_setting CURLOPT_USERNAME plan =
    (if auth_type_ c =? CurlAuthType.NONE then None
     else Some (OptString (c_str (username_ c)))) /\
  last_setting CURLOPT_PASSWORD plan =
    (if auth_type_ c =? CurlAuthType.NONE then None
     else Some (OptString (c_str (password_ c)))) /\
  last_setting CURLOPT_VERBOSE plan =
    (if verbose_ c then Some (OptLong 1) else None) /\
  last_setting CURLOPT_FAILONERROR plan =
    (if fail_on_http_error_ c then Some (OptLong 1) else None) /\
  last_setting CURLOPT_HEADER plan =
    (if return_headers_ c then Some (OptLong 1) else None) /\
  last_setting CURLOPT_NOSIGNAL plan =
    (if 0 <? timeout_secs_ c then Some (OptLong 1) else None) /\
  last_setting CURLOPT_TIMEOUT plan =
    (if 0 <? timeout_secs_ c then Some (OptLong (timeout_secs_ c)) else None) /\
  last_setting CURLOPT_DNS_SERVERS plan =
    (if String.eqb (dns_servers_ c) "" then None
     else Some (OptString (c_str (dns_servers_ c)))) /\
  last_setting CURLOPT_HTTPHEADER plan = Some (OptSlist (map c_str headers)) /\
  last_setting CURLOPT_URL plan = Some (OptString (c_str url)) /\
  last_setting CURLOPT_WRITEFUNCTION plan = Some OptWriteCallback /\
  last_setting CURLOPT_WRITEDATA plan = Some OptDst /\
  last_setting CURLOPT_POSTFIELDS plan =
    (match post_data with
     | Some data => Some (OptString (c_str data))
     | None => None
     end) /\
  last_setting CURLOPT_ERRORBUFFER plan = None.
Proof.
  cbv zeta. plan_cases c post_data; repeat split; reflexivity.
Qed.

(** ** The sample web at work *)

Example new_client : EasyCurl_new Samples.web "" = Some Samples.fresh.
Proof. reflexivity. Qed.

Example fetch_ok :
  let r := FetchURL Samples.web Samples.fresh "http://host/ok" "old" [] in
  buffer r = "hello, world" /\ outcome r = Returned (Error_of kOk) /\
  num_connects (client r) = 1.
Proof. repeat split; vm_compute; reflexivity. Qed.

Example fetch_times_out :
  let r := FetchURL Samples.web (set_timeout 3 Samples.fresh)
             "http://slow/" "old" [] in
  buffer r = "" /\
  outcome r = Returned (mkError kTimedOut "curl timeoutTimeout was reached").
Proof. repeat split; vm_compute; reflexivity. Qed.

Example fetch_fails_on_http_error :
  let r := FetchURL Samples.web (set_fail_on_http_error true Samples.fresh)
             "http://host/missing" "old" [] in
  outcome r =
    Returned (mkError kNetworkError
      ("curl errorHTTP response code said error: " +:+
       "The requested URL returned error: 404")).
Proof. vm_compute; reflexivity. Qed.

(** ** Error translation *)

Lemma strlen_zero s : (strlen s =? 0) = String.eqb (c_str s) "".
Proof. unfold strlen. by destruct (c_str s). Qed.

(** C2, as stated, fails: for the timeout code and an empty detail buffer the
    message is not "request timed out: " followed by the diagnostic, and for
    a connection failure it is not "transport error: " followed by it. *)
Lemma TranslateError_spec_counterexample :
  TranslateError Samples.strerror CURLE_OPERATION_TIMEDOUT "" <>
    TranslateError_spec Samples.strerror CURLE_OPERATION_TIMEDOUT "" /\
  msg (TranslateError Samples.strerror CURLE_OPERATION_TIMEDOUT "") =
    "curl timeoutTimeout was reached" /\
  TranslateError Samples.strerror 7 "refused" <>
    TranslateError_spec Samples.strerror 7 "refused" /\
  msg (TranslateError Samples.strerror 7 "refused") =
    "curl errorCouldn't connect to server: refused".
Proof. repeat split; vm_compute; congruence. Qed.

(** C2, amended: [TranslateError] is a function of the code and the detail
    buffer alone; the success code gives Ok (with an empty message), the
    timeout code gives [kTimedOut] with the message "curl timeout" directly
    followed by the diagnostic, and every other code gives [kNetworkError]
    with "curl error" directly followed by the diagnostic; the diagnostic is
    the generic text, extended with ": " and the detail exactly when the
    detail (the C string in the buffer) is not empty. *)
Theorem TranslateError_cases (strerror : CURLcode -> string) (rc : CURLcode)
    (errbuf : string) :
  TranslateError strerror rc errbuf =
  if rc =? CURLE_OK then mkError kOk ""
  else if rc =? CURLE_OPERATION_TIMEDOUT then
    mkError kTimedOut
      ("curl timeout" +:+ transport_diagnostic (strerror rc) (c_str errbuf))
  else
    mkError kNetworkError
      ("curl error" +:+ transport_diagnostic (strerror rc) (c_str errbuf)).
Proof.
  unfold TranslateError, transport_diagnostic.
  rewrite strlen_zero.
  destruct (rc =? CURLE_OK); [done|].
  by destruct (String.eqb (c_str errbuf) "").
Qed.

(** ** The setters *)

(** C10: [set_auth] answers Ok whatever it is given and stores the auth type,
    the user name and the password, leaving the rest of the object alone;
    called with the auth type only, as in [set_auth(CurlAuthType::NONE)], it
    stores empty credentials over the previous ones. *)
Theorem set_auth_always_ok (a : CurlAuthType.t) (u p : string) (c : EasyCurl) :
  (set_auth a u p c).2 = mkError kOk "" /\
  auth_type_ (set_auth a u p c).1 = a /\
  username_ (set_auth a u p c).1 = u /\
  password_ (set_auth a u p c).1 = p /\
  set_auth a u p c =
    (mkEasyCurl (curl_ c) (return_headers_ c) (verbose_ c)
       (fail_on_http_error_ c) (timeout_secs_ c) (dns_servers_ c)
       (num_connects_ c) (errbuf_ c) u p a, mkError kOk "") /\
  (set_auth_default CurlAuthType.NONE (set_auth a u p c).1).2 =
    mkError kOk "" /\
  auth_type_ (set_auth_default CurlAuthType.NONE (set_auth a u p c).1).1 =
    CurlAuthType.NONE /\
  username_ (set_auth_default CurlAuthType.NONE (set_auth a u p c).1).1 = "" /\
  password_ (set_auth_default CurlAuthType.NONE (set_auth a u p c).1).1 = "".
Proof. repeat split. Qed.

(** ** The status check *)

(** C1, at a response with status 404 and at a transfer without an HTTP
    status (0), both after a successful [curl_easy_perform] and with either
    value of [fail_on_http_error_] where the transport lets the transfer
    succeed: ["HTTP " + val] is pointer arithmetic on the literal, not a
    message with the number in it.  At 404 it leaves the literal, so the
    call has no defined result; at 0 the call returns [kRemoteError] with the
    message "HTTP ", in which "0" does not occur. *)
Theorem status_message_lacks_code :
  pr_code (perform Samples.web
    (request_handle Samples.fresh "http://host/missing" None [])) = CURLE_OK /\
  outcome (FetchURL Samples.web Samples.fresh "http://host/missing" "" []) =
    Undefined /\
  outcome (PostToURL Samples.web Samples.fresh "http://host/missing" "q"
             "" []) = Undefined /\
  literal_plus "HTTP " 404 = None /\
  outcome (FetchURL Samples.web Samples.fresh "file:///x" "" []) =
    Returned (mkError kRemoteError "HTTP ") /\
  outcome (FetchURL Samples.web (set_fail_on_http_error true Samples.fresh)
             "file:///x" "" []) =
    Returned (mkError kRemoteError "HTTP ") /\
  contains "0" "HTTP " = false.
Proof. repeat split; vm_compute; reflexivity. Qed.

(** ** Calls that reach the transfer *)

Section Configured.

Context (T : Transport).

Lemma FetchURL_DoRequest obj url dst0 headers :
  FetchURL T obj url dst0 headers =
  call (DoRequest T url None headers) obj dst0.
Proof. reflexivity. Qed.

Lemma PostToURL_DoRequest obj url post_data dst0 headers :
  PostToURL T obj url post_data dst0 headers =
  call (DoRequest T url (Some post_data) headers) obj dst0.
Proof. reflexivity. Qed.

Lemma configured_split obj url post_data headers :
  configured T obj url post_data headers = true <->
  refusal T (pre_plan obj) = CURLE_OK /\
  refusal T (post_plan obj url post_data (map c_str headers)) = CURLE_OK.
Proof.
  unfold configured, request_plan. rewrite refusal_app, Z.eqb_eq.
  destruct (Z.eqb_spec (refusal T (pre_plan obj)) CURLE_OK); tauto.
Qed.

Lemma call_configured url post_data headers obj dst0 :
  configured T obj url post_data headers = true ->
  call (DoRequest T url post_data headers) obj dst0 =
  let r := transfer T (ready obj url post_data headers) in
  mkCallResult (self r.1) (dst r.1) r.2
    (match r.2 with Undefined => [] | _ => [map c_str headers] end).
Proof.
  intros H. apply configured_split in H as [E1 E2].
  rewrite call_DoRequest. cbv zeta.
  by rewrite E1, E2.
Qed.

Lemma call_configured_handle url post_data headers obj dst0 :
  configured T obj url post_data headers = true ->
  curl_ (client (call (DoRequest T url post_data headers) obj dst0)) =
  request_handle obj url post_data headers.
Proof.
  intros H. rewrite call_configured by done. cbv zeta. cbn [client].
  by destruct (transfer_frame T (ready obj url post_data headers))
    as (_ & _ & ->).
Qed.

Lemma call_configured_lookup url post_data headers obj dst0 o :
  configured T obj url post_data headers = true ->
  curl_ (client (call (DoRequest T url post_data headers) obj dst0)) !! o =
  match last_setting o (request_plan obj url post_data headers) with
  | Some v => Some v
  | None => curl_ obj !! o
  end.
Proof.
  intros H. rewrite call_configured_handle by done.
  apply lookup_store.
Qed.

End Configured.

(** ** Configuration and the handle *)

Lemma apply_setters_handle setters c :
  curl_ (apply_setters setters c) = curl_ c.
Proof.
  revert c. induction setters as [|s setters IH]; intros c; [done|].
  cbn [apply_setters foldl]. fold (apply_setters setters (apply_setter c s)).
  rewrite IH. by destruct s.
Qed.

(** A transport that accepts every option lets every call reach the
    transfer. *)
Lemma accepting_configured T obj url post_data headers :
  (forall o v, setopt_code T o v = CURLE_OK) ->
  configured T obj url post_data headers = true.
Proof.
  intros H. unfold configured. apply Z.eqb_eq.
  induction (request_plan obj url post_data headers) as [|[o v] l IH];
    [done|].
  cbn [refusal]. by rewrite H, Z.eqb_refl.
Qed.

(** C3, at a client that had every option switched on for one request and
    has every setter called back before the next.  On the sample web: header
    echo, a time limit of 3 seconds, a DNS server, verbose mode, failing on
    HTTP errors and Basic authentication are set and a page is fetched; then
    [set_return_headers(false)], [set_timeout(0)], [set_dns_servers("")],
    [set_verbose(false)], [set_fail_on_http_error(false)] and
    [set_auth(NONE)] are called.  Each setter has stored its argument: the
    stored configuration is, member for member, that of a new client.  The
    next requests all the same run with every one of the options on the
    handle, at the values of the earlier request: the page comes back with
    the status line in front, which a new client does not get, and a missing
    page is reported as a transport failure although
    [fail_on_http_error_] is false. *)
Theorem disabled_options_still_sent :
  let url := "http://host/ok" in
  let c1 :=
    (set_auth CurlAuthType.BASIC "user" "secret"
       (set_fail_on_http_error true (set_verbose true
          (set_dns_servers "8.8.8.8" (set_timeout 3
             (set_return_headers true Samples.fresh)))))).1 in
  let r1 := FetchURL Samples.web c1 url "" [] in
  let c2 :=
    (set_auth_default CurlAuthType.NONE
       (set_fail_on_http_error false (set_verbose false
          (set_dns_servers "" (set_timeout 0
             (set_return_headers false (client r1))))))).1 in
  let r2 := FetchURL Samples.web c2 url (buffer r1) [] in
  let r3 := FetchURL Samples.web c2 "http://host/missing" (buffer r2) [] in
  (return_headers_ c2 = false /\ timeout_secs_ c2 = 0 /\
   dns_servers_ c2 = "" /\ verbose_ c2 = false /\
   fail_on_http_error_ c2 = false /\
   auth_type_ c2 = CurlAuthType.NONE /\ username_ c2 = "" /\
   password_ c2 = "") /\
  (return_headers_ c2 = return_headers_ Samples.fresh /\
   dns_servers_ c2 = dns_servers_ Samples.fresh /\
   verbose_ c2 = verbose_ Samples.fresh /\
   fail_on_http_error_ c2 = fail_on_http_error_ Samples.fresh /\
   auth_type_ c2 = auth_type_ Samples.fresh /\
   username_ c2 = username_ Samples.fresh /\
   password_ c2 = password_ Samples.fresh /\
   (0 <? timeout_secs_ c2) = (0 <? timeout_secs_ Samples.fresh)) /\
  outcome r2 = Returned (mkError kOk "") /\
  (curl_ (client r2) !! CURLOPT_HEADER = Some (OptLong 1) /\
   curl_ (client r2) !! CURLOPT_TIMEOUT = Some (OptLong 3) /\
   curl_ (client r2) !! CURLOPT_NOSIGNAL = Some (OptLong 1) /\
   curl_ (client r2) !! CURLOPT_DNS_SERVERS = Some (OptString "8.8.8.8") /\
   curl_ (client r2) !! CURLOPT_VERBOSE = Some (OptLong 1) /\
   curl_ (client r2) !! CURLOPT_FAILONERROR = Some (OptLong 1) /\
   curl_ (client r2) !! CURLOPT_HTTPAUTH = Some (OptLong CURLAUTH_BASIC) /\
   curl_ (client r2) !! CURLOPT_USERNAME = Some (OptString "user") /\
   curl_ (client r2) !! CURLOPT_PASSWORD = Some (OptString "secret")) /\
  buffer r2 = "HTTP/1.1 200 OK; hello, world" /\
  buffer (FetchURL Samples.web Samples.fresh url "" []) = "hello, world" /\
  outcome r3 =
    Returned (mkError kNetworkError
      ("curl errorHTTP response code said error: " +:+
       "The requested URL returned error: 404")).
Proof. repeat split; vm_compute; reflexivity. Qed.

(** The general picture.  The setters do not touch the transport handle.  A
    call that gets as far as the transfer (every option it sets is accepted)
    hands the transport the handle of the previous calls with, on top of it:
    each option that the stored configuration enables, at its stored value
    (auth type other than NONE: the mechanism and the credentials;
    [verbose_], [fail_on_http_error_], [return_headers_] true: the flag; a
    positive timeout: no-signal and the timeout; a non-empty DNS string: the
    servers).  An option that the stored configuration does not enable is
    not touched: the request runs with whatever the handle already held for
    it. *)
Theorem enabled_options_reach_the_handle (T : Transport) (c : EasyCurl)
    (setters : list Setter) (url : string) (post_data : option string)
    (headers : list string) (dst0 : string) :
  let obj := apply_setters setters c in
  configured T obj url post_data headers = true ->
  let h := curl_ c in
  let h' :=
    curl_ (client (call (DoRequest T url post_data headers) obj dst0)) in
  curl_ obj = h /\
  h' = request_handle obj url post_data headers /\
  h' !! CURLOPT_VERBOSE =
    (if verbose_ obj then Some (OptLong 1) else h !! CURLOPT_VERBOSE) /\
  h' !! CURLOPT_FAILONERROR =
    (if fail_on_http_error_ obj then Some (OptLong 1)
     else h !! CURLOPT_FAILONERROR) /\
  h' !! CURLOPT_HEADER =
    (if return_headers_ obj then Some (OptLong 1) else h !! CURLOPT_HEADER) /\
  h' !! CURLOPT_TIMEOUT =
    (if 0 <? timeout_secs_ obj then Some (OptLong (timeout_secs_ obj))
     else h !! CURLOPT_TIMEOUT) /\
  h' !! CURLOPT_NOSIGNAL =
    (if 0 <? timeout_secs_ obj then Some (OptLong 1)
     else h !! CURLOPT_NOSIGNAL) /\
  h' !! CURLOPT_DNS_SERVERS =
    (if String.eqb (dns_servers_ obj) "" then h !! CURLOPT_DNS_SERVERS
     else Some (OptString (c_str (dns_servers_ obj)))) /\
  h' !! CURLOPT_HTTPAUTH =
    (if auth_type_ obj =? CurlAuthType.BASIC then Some (OptLong CURLAUTH_BASIC)
     else if auth_type_ obj =? CurlAuthType.NONE then h !! CURLOPT_HTTPAUTH
     else Some (OptLong CURLAUTH_ANY)) /\
  h' !! CURLOPT_USERNAME =
    (if auth_type_ obj =? CurlAuthType.NONE then h !! CURLOPT_USERNAME
     else Some (OptString (c_str (username_ obj)))) /\
  h' !! CURLOPT_PASSWORD =
    (if auth_type_ obj =? CurlAuthType.NONE then h !! CURLOPT_PASSWORD
     else Some (OptString (c_str (password_ obj)))).
Proof.
  cbv zeta. intros H.
  pose proof (apply_setters_handle setters c) as Hh.
  split; [exact Hh|]. split; [by apply call_configured_handle|].
  rewrite !call_configured_lookup by done. rewrite Hh.
  destruct (request_plan_table (apply_setters setters c) url post_data headers)
    as (-> & -> & -> & -> & -> & -> & -> & -> & -> & _).
  repeat split; repeat case_match; done.
Qed.

(** After a verbose request with a timeout of 3 seconds on the sample web,
    the handle holds both options and no header echo. *)
Lemma enabled_options_reach_the_handle_witness :
  let obj := apply_setters [SetVerbose true; SetTimeout 3] Samples.fresh in
  let h' := curl_ (client (call
    (DoRequest Samples.web "http://host/ok" None []) obj "")) in
  configured Samples.web obj "http://host/ok" None [] = true /\
  h' !! CURLOPT_VERBOSE = Some (OptLong 1) /\
  h' !! CURLOPT_TIMEOUT = Some (OptLong 3) /\
  h' !! CURLOPT_HEADER = None.
Proof.
  cbv zeta.
  pose proof (enabled_options_reach_the_handle Samples.web Samples.fresh
    [SetVerbose true; SetTimeout 3] "http://host/ok" None []
    "" eq_refl) as (_ & _ & Hv & _ & Hh & Ht & _).
  split; [reflexivity|]. split; [exact Hv|]. split; [exact Ht|exact Hh].
Defined.

(** C4: there are auth type values other than NONE and BASIC (the value 2 of
    the enumeration's underlying type is one), and for every one of them a
    call that reaches the transfer has told the transport to try any
    authentication mechanism ([CURLAUTH_ANY]) and has given it the stored
    user name and password. *)
Theorem other_auth_types_try_any :
  (exists a : CurlAuthType.t,
     a <> CurlAuthType.NONE /\ a <> CurlAuthType.BASIC) /\
  forall (T : Transport) (obj : EasyCurl) (url : string)
         (post_data : option string) (headers : list string) (dst0 : string),
    auth_type_ obj <> CurlAuthType.NONE ->
    auth_type_ obj <> CurlAuthType.BASIC ->
    configured T obj url post_data headers = true ->
    let h' :=
      curl_ (client (call (DoRequest T url post_data headers) obj dst0)) in
    h' !! CURLOPT_HTTPAUTH = Some (OptLong CURLAUTH_ANY) /\
    h' !! CURLOPT_USERNAME = Some (OptString (c_str (username_ obj))) /\
    h' !! CURLOPT_PASSWORD = Some (OptString (c_str (password_ obj))).
Proof.
  split; [by exists 2|].
  intros T obj url post_data headers dst0 Hnone Hbasic H.
  cbv zeta. rewrite !call_configured_lookup by done.
  destruct (request_plan_table obj url post_data headers)
    as (-> & -> & -> & _).
  apply Z.eqb_neq in Hnone, Hbasic. by rewrite Hnone, Hbasic.
Qed.

(** The auth type 2 with credentials, on the sample web. *)
Lemma other_auth_types_try_any_witness :
  let obj := (set_auth 2 "user" "secret" Samples.fresh).1 in
  let h' := curl_ (client (call
    (DoRequest Samples.web "http://host/ok" None []) obj "")) in
  auth_type_ obj <> CurlAuthType.NONE /\
  auth_type_ obj <> CurlAuthType.BASIC /\
  configured Samples.web obj "http://host/ok" None [] = true /\
  h' !! CURLOPT_HTTPAUTH = Some (OptLong CURLAUTH_ANY) /\
  h' !! CURLOPT_USERNAME = Some (OptString "user") /\
  h' !! CURLOPT_PASSWORD = Some (OptString "secret").
Proof.
  cbv zeta.
  assert (H1 : auth_type_ (set_auth 2 "user" "secret" Samples.fresh).1 <>
               CurlAuthType.NONE) by (vm_compute; discriminate).
  assert (H2 : auth_type_ (set_auth 2 "user" "secret" Samples.fresh).1 <>
               CurlAuthType.BASIC) by (vm_compute; discriminate).
  split; [exact H1|]. split; [exact H2|]. split; [reflexivity|].
  exact (proj2 other_auth_types_try_any Samples.web
           (set_auth 2 "user" "secret" Samples.fresh).1 "http://host/ok"
           None [] "" H1 H2 eq_refl).
Defined.

(** ** Headers *)

(** C8, as stated, fails.  A header string may hold a NUL byte, and the
    loop hands [header.c_str()] to [curl_slist_append], which copies up to
    the first NUL: on the sample web the header
    ["X-Note: a" NUL "b"] reaches the transport as ["X-Note: a"], which is
    not the given string. *)
Lemma header_with_NUL_counterexample :
  let headers := ["Accept: text/plain"; "X-Note: a" +:+ String NUL "b"] in
  let r := FetchURL Samples.web Samples.fresh "http://host/ok" "" headers in
  outcome r = Returned (mkError kOk "") /\
  curl_ (client r) !! CURLOPT_HTTPHEADER =
    Some (OptSlist ["Accept: text/plain"; "X-Note: a"]) /\
  curl_ (client r) !! CURLOPT_HTTPHEADER <> Some (OptSlist headers).
Proof.
  cbv zeta. split; [vm_compute; reflexivity|].
  split; [vm_compute; reflexivity|]. vm_compute. discriminate.
Qed.

(** C8, amended.  The list that a call reaching the transfer attaches to the
    handle as [CURLOPT_HTTPHEADER], and so hands to the transport, holds one
    entry for each given header, in the given order, repeated where the
    given list repeats it: nothing is dropped, merged or reordered.  Each
    entry is the given string as handed over by [c_str()], its bytes before
    the first NUL byte: for a header without a NUL byte, the string itself,
    unmodified. *)
Theorem headers_handed_over_as_C_strings (T : Transport) (obj : EasyCurl)
    (url : string) (post_data : option string) (headers : list string)
    (dst0 : string) :
  configured T obj url post_data headers = true ->
  let h' :=
    curl_ (client (call (DoRequest T url post_data headers) obj dst0)) in
  h' = request_handle obj url post_data headers /\
  h' !! CURLOPT_HTTPHEADER = Some (OptSlist (map c_str headers)) /\
  (forallb nul_free headers = true ->
   h' !! CURLOPT_HTTPHEADER = Some (OptSlist headers)).
Proof.
  intros H. cbv zeta.
  split; [by apply call_configured_handle|].
  rewrite call_configured_lookup by done.
  destruct (request_plan_table obj url post_data headers)
    as (_ & _ & _ & _ & _ & _ & _ & _ & _ & -> & _).
  split; [done|]. intros Hnul. by rewrite map_c_str_nul_free.
Qed.

(** Three header lines, two of them equal, on the sample web. *)
Lemma headers_handed_over_as_C_strings_witness :
  let headers := ["Accept: text/plain"; "X-Tag: a"; "X-Tag: a"] in
  configured Samples.web Samples.fresh "http://host/ok" None headers = true /\
  forallb nul_free headers = true /\
  curl_ (client (FetchURL Samples.web Samples.fresh "http://host/ok" ""
                   headers)) !! CURLOPT_HTTPHEADER =
    Some (OptSlist headers).
Proof.
  cbv zeta. split; [reflexivity|]. split; [reflexivity|].
  exact (proj2 (proj2 (headers_handed_over_as_C_strings Samples.web
    Samples.fresh "http://host/ok" None
    ["Accept: text/plain"; "X-Tag: a"; "X-Tag: a"] "" eq_refl)) eq_refl).
Defined.

(** ** The transfer *)

Section Transfer.

Context (T : Transport).

Lemma request_handle_writes obj url post_data headers :
  request_handle obj url post_data headers !! CURLOPT_WRITEFUNCTION =
    Some OptWriteCallback /\
  request_handle obj url post_data headers !! CURLOPT_WRITEDATA =
    Some OptDst.
Proof.
  unfold request_handle. rewrite !lookup_store.
  by destruct (request_plan_table obj url post_data headers)
    as (_ & _ & _ & _ & _ & _ & _ & _ & _ & _ & _ & -> & -> & _).
Qed.

(** What the transfer leaves in the object: the configuration as it was,
    some error text, some connection count. *)
Lemma transfer_self m :
  exists e n,
    self (transfer T m).1 =
    with_num_connects n (with_errbuf (fun _ => e) (self m)).
Proof.
  destruct m as [[h ? ? ? ? ? ? b ? ? ?] d ? ?]. unfold transfer. cbv zeta.
  cbn [self curl_].
  destruct (decide (h !! CURLOPT_ERRORBUFFER = Some OptErrbuf)),
           (decide (h !! CURLOPT_WRITEFUNCTION = Some OptWriteCallback /\
                    h !! CURLOPT_WRITEDATA = Some OptDst));
    cbn [self with_self with_errbuf with_dst errbuf_ curl_ dst];
    repeat case_match;
    unfold with_self, with_dst, with_num_connects, with_errbuf; cbn;
    do 2 eexists; reflexivity.
Qed.

(** Two transfers on the same handle, into equal buffers, with the same C
    string in the error buffer, end alike. *)
Lemma transfer_agree m m' :
  curl_ (self m) = curl_ (self m') ->
  dst m = dst m' ->
  c_str (errbuf_ (self m)) = c_str (errbuf_ (self m')) ->
  (transfer T m).2 = (transfer T m').2 /\
  dst (transfer T m).1 = dst (transfer T m').1.
Proof.
  destruct m as [[h ? ? ? ? ? ? b ? ? ?] d ? ?],
           m' as [[h' ? ? ? ? ? ? b' ? ? ?] d' ? ?].
  cbn. intros <- <- Hb. unfold transfer. cbv zeta.
  cbn [self curl_].
  destruct (decide (h !! CURLOPT_ERRORBUFFER = Some OptErrbuf)),
           (decide (h !! CURLOPT_WRITEFUNCTION = Some OptWriteCallback /\
                    h !! CURLOPT_WRITEDATA = Some OptDst));
    cbn [self with_self with_errbuf with_dst errbuf_ curl_ dst];
    try rewrite !(TranslateError_c_str _ _ b b' Hb);
    repeat case_match; done.
Qed.

End Transfer.

(** C5: when every option is accepted, [curl_easy_perform] succeeds, both
    queries succeed and the status [c] is in [200, 300), the call returns Ok
    and the destination holds exactly the bytes of the chunks the transport
    delivered, in the order of their arrival (header lines among them when
    the transport was asked to echo headers), whatever it held before. *)
Theorem success_fills_buffer (T : Transport) (obj : EasyCurl) (url : string)
    (post_data : option string) (headers : list string) (dst0 : string)
    (c : Z) :
  let h := request_handle obj url post_data headers in
  let r := call (DoRequest T url post_data headers) obj dst0 in
  configured T obj url post_data headers = true ->
  pr_code (perform T h) = CURLE_OK ->
  (getinfo T h CURLINFO_NUM_CONNECTS).1 = CURLE_OK ->
  getinfo T h CURLINFO_RESPONSE_CODE = (CURLE_OK, c) ->
  200 <= c < 300 ->
  outcome r = Returned (mkError kOk "") /\
  buffer r = concat_chunks (pr_chunks (perform T h)) /\
  (return_headers_ obj = true -> h !! CURLOPT_HEADER = Some (OptLong 1)).
Proof.
  cbv zeta. intros H Hp Hn Hs Hc.
  assert (Hecho : return_headers_ obj = true ->
    request_handle obj url post_data headers !! CURLOPT_HEADER =
    Some (OptLong 1)).
  { intros Hret. unfold request_handle. rewrite lookup_store.
    destruct (request_plan_table obj url post_data headers)
      as (_ & _ & _ & _ & _ & -> & _).
    by rewrite Hret. }
  cut (forall P Q R : Prop, P /\ Q -> R -> P /\ Q /\ R); [|tauto].
  intros Hcut. apply Hcut; [|exact Hecho]. clear Hcut Hecho.
  rewrite call_configured by done. cbv zeta. cbn [outcome buffer].
  destruct (request_handle_writes obj url post_data headers) as [Hf Hd].
  unfold transfer, ready. cbv zeta.
  cbn [self with_self with_curl with_errbuf curl_].
  rewrite (decide_True (P := _ /\ _)) by done.
  rewrite Hp, Hn, Hs.
  assert ((c <? 200) || (c >=? 300) = false) as Hr by lia.
  case_decide; cbn -[deliver bool_decide];
    rewrite !bool_decide_eq_true_2 by done; cbn -[deliver];
    rewrite Hr; cbn -[deliver]; by rewrite deliver_concat.
Qed.

(** With header echo on, the page of the sample web arrives in three chunks
    and replaces what the buffer held. *)
Lemma success_fills_buffer_witness :
  let obj := set_return_headers true Samples.fresh in
  let r := FetchURL Samples.web obj "http://host/ok" "stale" [] in
  outcome r = Returned (mkError kOk "") /\
  buffer r = "HTTP/1.1 200 OK; hello, world".
Proof.
  cbv zeta.
  pose proof (success_fills_buffer Samples.web
    (set_return_headers true Samples.fresh) "http://host/ok" None [] "stale"
    200 eq_refl eq_refl eq_refl eq_refl) as H.
  destruct H as (Ho & Hb & _); [lia|].
  split; [exact Ho|exact Hb].
Defined.

(** The other side of the status check, for every status: when the transfer
    and both queries succeed and the status [c] is outside [200, 300), the
    call ends as ["HTTP " + c] decides, with [fail_on_http_error_] playing no
    part: [kRemoteError] when [c] is an offset into the literal, and no
    defined result otherwise. *)
Lemma status_outside_2xx (T : Transport) (obj : EasyCurl) (url : string)
    (post_data : option string) (headers : list string) (dst0 : string)
    (c : Z) :
  let h := request_handle obj url post_data headers in
  let r := call (DoRequest T url post_data headers) obj dst0 in
  configured T obj url post_data headers = true ->
  pr_code (perform T h) = CURLE_OK ->
  (getinfo T h CURLINFO_NUM_CONNECTS).1 = CURLE_OK ->
  getinfo T h CURLINFO_RESPONSE_CODE = (CURLE_OK, c) ->
  c < 200 \/ 300 <= c ->
  outcome r =
    match literal_plus "HTTP " c with
    | Some text => Returned (mkError kRemoteError text)
    | None => Undefined
    end.
Proof.
  cbv zeta. intros H Hp Hn Hs Hc.
  rewrite call_configured by done. cbv zeta. cbn [outcome].
  unfold transfer, ready. cbv zeta.
  cbn [self with_self with_curl with_errbuf curl_].
  rewrite Hp, Hn, Hs.
  assert ((c <? 200) || (c >=? 300) = true) as Hr by lia.
  repeat case_decide; cbn -[deliver bool_decide literal_plus];
    rewrite !bool_decide_eq_true_2 by done;
    cbn -[deliver literal_plus]; rewrite Hr;
    by destruct (literal_plus "HTTP " c).
Qed.


(** ** The connection count *)

(** C6, as stated, fails.  A client fetches a page (one connection); its next
    call fails in [curl_easy_perform]; [num_connects()] still answers 1, the
    count of the earlier call, where a new client making the same failing
    call answers 0. *)
Lemma num_connects_counterexample :
  let r1 := FetchURL Samples.web Samples.fresh "http://host/ok" "" [] in
  let r2 := FetchURL Samples.web (client r1) "http://down/" (buffer r1) [] in
  let r2' := FetchURL Samples.web Samples.fresh "http://down/" "" [] in
  outcome r1 = Returned (mkError kOk "") /\
  num_connects (client r1) = 1 /\
  outcome r2 =
    Returned (mkError kNetworkError
      "curl errorCouldn't connect to server: Failed to connect to down port 80")
    /\
  outcome r2' = outcome r2 /\
  num_connects (client r2) = 1 /\
  num_connects (client r2') = 0.
Proof. repeat split; vm_compute; reflexivity. Qed.

(** C6, amended.  [num_connects_] is overwritten exactly when the call gets
    as far as the transfer, [curl_easy_perform] succeeds and the query for
    the connection count succeeds; it then holds the transport's count for
    this call (reduced to an int), whatever it held before, and that is
    non-negative when the transport's count is a non-negative int.  After any
    other call [num_connects()] answers what it answered before the call. *)
Theorem num_connects_after_call (T : Transport) (obj : EasyCurl)
    (url : string) (post_data : option string) (headers : list string)
    (dst0 : string) :
  let h := request_handle obj url post_data headers in
  let r := call (DoRequest T url post_data headers) obj dst0 in
  let counted :=
    configured T obj url post_data headers &&
    (pr_code (perform T h) =? CURLE_OK) &&
    ((getinfo T h CURLINFO_NUM_CONNECTS).1 =? CURLE_OK) in
  num_connects (client r) =
    (if counted then static_cast_int (getinfo T h CURLINFO_NUM_CONNECTS).2
     else num_connects obj) /\
  (counted = true ->
   0 <= (getinfo T h CURLINFO_NUM_CONNECTS).2 < 2 ^ 31 ->
   num_connects (client r) = (getinfo T h CURLINFO_NUM_CONNECTS).2 /\
   0 <= num_connects (client r)).
Proof.
  cbv zeta.
  assert (Hmain :
    num_connects (client (call (DoRequest T url post_data headers) obj dst0)) =
    if configured T obj url post_data headers &&
       (pr_code (perform T (request_handle obj url post_data headers))
          =? CURLE_OK) &&
       ((getinfo T (request_handle obj url post_data headers)
           CURLINFO_NUM_CONNECTS).1 =? CURLE_OK)
    then static_cast_int
           (getinfo T (request_handle obj url post_data headers)
              CURLINFO_NUM_CONNECTS).2
    else num_connects obj).
  { destruct (configured T obj url post_data headers) eqn:Hc.
    - rewrite call_configured by done. cbv zeta. cbn [client andb].
      unfold transfer, ready. cbv zeta.
      cbn [self with_self with_curl with_errbuf curl_].
      set (h := request_handle obj url post_data headers).
      destruct (Z.eqb_spec (pr_code (perform T h)) CURLE_OK) as [Hp|Hp].
      + rewrite (bool_decide_eq_true_2 (code (TranslateError _ (pr_code _) _)
          = kOk)) by by apply TranslateError_code_ok.
        cbn [negb andb].
        destruct (Z.eqb_spec (getinfo T h CURLINFO_NUM_CONNECTS).1 CURLE_OK)
          as [Hn|Hn].
        * rewrite (bool_decide_eq_true_2 (code (TranslateError _
            (getinfo T h CURLINFO_NUM_CONNECTS).1 _) = kOk))
            by by apply TranslateError_code_ok.
          cbn [negb].
          repeat (case_decide || case_match); reflexivity.
        * rewrite (bool_decide_eq_false_2 (code (TranslateError _
            (getinfo T h CURLINFO_NUM_CONNECTS).1 _) = kOk))
            by by apply TranslateError_refused.
          cbn [negb]. repeat case_decide; reflexivity.
      + rewrite (bool_decide_eq_false_2 (code (TranslateError _ (pr_code _) _)
          = kOk)) by by apply TranslateError_refused.
        cbn [negb andb]. repeat case_decide; reflexivity.
    - cbn [andb]. rewrite call_DoRequest. cbv zeta.
      unfold configured, request_plan in Hc. rewrite refusal_app in Hc.
      destruct (refusal T (pre_plan obj) =? CURLE_OK) eqn:E1;
        cbn [negb]; [|reflexivity].
      rewrite Hc. reflexivity. }
  split; [exact Hmain|].
  intros Hcounted Hrange. rewrite Hmain, Hcounted.
  unfold static_cast_int.
  rewrite Z.mod_small by lia. lia.
Qed.

(** One connection for the page of the sample web. *)
Lemma num_connects_after_call_witness :
  let r := FetchURL Samples.web Samples.fresh "http://host/ok" "" [] in
  num_connects (client r) = 1 /\ 0 <= num_connects (client r).
Proof.
  cbv zeta.
  refine (proj2 (num_connects_after_call Samples.web Samples.fresh
    "http://host/ok" None [] "") eq_refl _).
  change (0 <= 1 < 2 ^ 31). lia.
Defined.

(** ** Two runs *)

(** C7: the result of a call (what it leaves in the destination, and the
    error it returns) is the same whatever the destination held before; and a
    second call, made with the same arguments on the client and the buffer
    that the first call left behind, leaves the same bytes in the buffer and
    returns the same error as the first.  The transport is deterministic: what
    it does is a function of the options on the handle. *)
Theorem result_independent_of_buffer (T : Transport) (obj : EasyCurl)
    (url : string) (post_data : option string) (headers : list string)
    (dst1 dst2 : string) :
  let r1 := call (DoRequest T url post_data headers) obj dst1 in
  let r2 := call (DoRequest T url post_data headers) (client r1) (buffer r1) in
  r1 = call (DoRequest T url post_data headers) obj dst2 /\
  buffer r2 = buffer r1 /\
  outcome r2 = outcome r1.
Proof.
  cbv zeta. split; [by rewrite !call_DoRequest|].
  rewrite (call_DoRequest T url post_data headers obj). cbv zeta.
  destruct (Z.eqb_spec (refusal T (pre_plan obj)) CURLE_OK) as [E1|E1];
    cbn [negb].
  2: { cbn [client buffer outcome]. rewrite call_DoRequest. cbv zeta.
       change (pre_plan (with_curl _ _)) with (pre_plan obj).
       rewrite (proj2 (Z.eqb_neq _ _) E1). cbn [negb buffer outcome].
       split; [done|]. f_equal. apply TranslateError_c_str.
       cbn. by rewrite !c_str_clear_errbuf. }
  destruct (Z.eqb_spec (refusal T (post_plan obj url post_data
    (map c_str headers))) CURLE_OK) as [E2|E2]; cbn [negb].
  2: { cbn [client buffer outcome]. rewrite call_DoRequest. cbv zeta.
       change (pre_plan (with_curl _ _)) with (pre_plan obj).
       change (post_plan (with_curl _ _)) with (post_plan obj).
       rewrite E1, Z.eqb_refl, (proj2 (Z.eqb_neq _ _) E2).
       cbn [negb buffer outcome].
       split; [done|]. f_equal. apply TranslateError_c_str.
       cbn. by rewrite !c_str_clear_errbuf. }
  cbn [client buffer outcome].
  set (m := mkMachine _ _ _ _).
  destruct (transfer_self T m) as (e & n & Hs).
  rewrite call_DoRequest, Hs. cbv zeta.
  change (pre_plan (with_num_connects _ _)) with (pre_plan obj).
  change (post_plan (with_num_connects _ _)) with (post_plan obj).
  rewrite E1, E2, Z.eqb_refl. cbn [negb buffer outcome].
  set (m' := mkMachine _ _ _ _).
  destruct (transfer_agree T m' m) as [Ho Hd]; [| | |by rewrite Ho, Hd].
  - subst m m'. cbn. apply store_idem.
  - reflexivity.
  - subst m m'. cbn. by rewrite !c_str_clear_errbuf.
Qed.

(** ** The header list *)

(** C9, as stated, fails.  Behind a libcurl without HTTP authentication, a
    client set to Basic authentication returns from [DoRequest] at the first
    [CURL_RETURN_NOT_OK], before the header list and its scope guard exist:
    [curl_slist_free_all] is not called, not even once. *)
Lemma header_list_release_counterexample :
  let obj := (set_auth CurlAuthType.BASIC "user" "secret" Samples.fresh).1 in
  let r := FetchURL Samples.web_without_auth obj "http://host/ok" ""
             ["Accept: text/plain"] in
  outcome r =
    Returned (mkError kNetworkError
      "curl errorAn unknown option was passed in to libcurl") /\
  slist_frees r = [] /\
  length (slist_frees r) <> 1%nat.
Proof. repeat split; vm_compute; congruence. Qed.

(** C9, amended.  Whenever [DoRequest] returns: if it returns because one of
    the options set before the header list is declared (authentication,
    verbosity, fail-on-error) was refused, no header list has been built and
    [curl_slist_free_all] is not called; on every other return (a refused
    header, URL, or later option; a failed transfer or query; a status
    outside 2xx whose message is defined; success) [curl_slist_free_all] is
    called exactly once, on the list built from this call's headers. *)
Theorem header_list_released_once (T : Transport) (obj : EasyCurl)
    (url : string) (post_data : option string) (headers : list string)
    (dst0 : string) (e : Error) :
  let r := call (DoRequest T url post_data headers) obj dst0 in
  outcome r = Returned e ->
  slist_frees r =
    if refusal T (pre_plan obj) =? CURLE_OK
    then [map c_str headers] else [].
Proof.
  cbv zeta. rewrite call_DoRequest. cbv zeta.
  destruct (refusal T (pre_plan obj) =? CURLE_OK); cbn [negb]; [|done].
  destruct (refusal T (post_plan _ _ _ _) =? CURLE_OK); cbn [negb]; [|done].
  cbn [outcome slist_frees]. by intros ->.
Qed.

(** A call with one header that fails in the transfer. *)
Lemma header_list_released_once_witness :
  let r := FetchURL Samples.web Samples.fresh "http://down/" ""
             ["Accept: text/plain"] in
  outcome r =
    Returned (mkError kNetworkError
      "curl errorCouldn't connect to server: Failed to connect to down port 80")
    /\
  slist_frees r = [["Accept: text/plain"]].
Proof.
  cbv zeta.
  assert (H : outcome (call (DoRequest Samples.web "http://down/" None
                ["Accept: text/plain"]) Samples.fresh "") =
    Returned (mkError kNetworkError
      ("curl errorCouldn't connect to server: " +:+
       "Failed to connect to down port 80")))
    by (vm_compute; reflexivity).
  split; [exact H|].
  exact (header_list_released_once Samples.web Samples.fresh "http://down/"
           None ["Accept: text/plain"] "" _ H).
Defined.


(** * More of the client's behaviour *)

(** ** The write callback *)

Lemma length_append s t :
  String.length (s +:+ t) = (String.length s + String.length t)%nat.
Proof.
  induction s as [|a s IH]; [done|].
  rewrite append_cons. cbn [String.length]. by rewrite IH.
Qed.

Lemma length_substring_0 n s :
  (n <= String.length s)%nat -> String.length (String.substring 0 n s) = n.
Proof.
  revert n. induction s as [|a s IH]; intros [|n] H; cbn in *; try done;
    [lia|].
  rewrite IH; [done|lia].
Qed.

Lemma prefix_append s t : String.prefix s (s +:+ t) = true.
Proof.
  induction s as [|a s IH]; [by destruct t|].
  rewrite append_cons. cbn [String.prefix].
  by destruct (Ascii.ascii_dec a a).
Qed.

(** X1: [WriteCallback] takes everything it is offered.  For [nmemb] items of
    [size] bytes that lie at [buffer] (their number a [size_t]), it appends
    exactly these [size * nmemb] bytes behind what the string already holds
    and returns [size * nmemb], the count that tells the transport to go on;
    offered nothing, it leaves the string as it is and returns 0. *)
Theorem WriteCallback_takes_all (buffer : string) (size nmemb : Z)
    (user_ptr : string) :
  0 <= size -> 0 <= nmemb -> size * nmemb < 2 ^ 64 ->
  size * nmemb <= Z.of_nat (String.length buffer) ->
  let r := WriteCallback buffer size nmemb user_ptr in
  r.2 = size * nmemb /\
  r.1 = user_ptr +:+ String.substring 0 (Z.to_nat (size * nmemb)) buffer /\
  String.prefix user_ptr r.1 = true /\
  Z.of_nat (String.length r.1) =
    Z.of_nat (String.length user_ptr) + size * nmemb /\
  (size * nmemb = 0 -> r.1 = user_ptr).
Proof.
  intros Hs Hn Hfit Hlen. cbv zeta.
  unfold WriteCallback, size_t_wrap. cbn [fst snd].
  rewrite Z.mod_small by nia.
  repeat split.
  - apply prefix_append.
  - rewrite length_append, length_substring_0 by lia. nia.
  - intros ->. cbn. destruct buffer; apply append_nil_r.
Qed.

(** Two items of three bytes out of a longer buffer. *)
Lemma WriteCallback_takes_all_witness :
  WriteCallback "abcdefgh" 3 2 "xy" = ("xyabcdef", 6).
Proof.
  pose proof (WriteCallback_takes_all "abcdefgh" 3 2 "xy") as H.
  cbv zeta in H.
  destruct H as (H2 & H1 & _); [lia| lia | vm_compute; reflexivity
                               | vm_compute; discriminate |].
  destruct (WriteCallback "abcdefgh" 3 2 "xy") as [b n].
  cbn [fst snd] in H1, H2. rewrite H1, H2. reflexivity.
Defined.

(** ** Error translation, continued *)

(** X2: [TranslateError] gives one of three codes: [kOk] exactly for
    [CURLE_OK], [kTimedOut] exactly for [CURLE_OPERATION_TIMEDOUT],
    [kNetworkError] for every other code.  The message is empty exactly for
    [CURLE_OK]; for an error it begins with the generic text's prefix.  Of
    the detail buffer only the bytes before the first NUL are read: two
    buffers with the same C string give the same error. *)
Theorem TranslateError_kinds (strerror : CURLcode -> string) (rc : CURLcode)
    (errbuf : string) :
  let e := TranslateError strerror rc errbuf in
  (code e = kOk <-> rc = CURLE_OK) /\
  (code e = kTimedOut <-> rc = CURLE_OPERATION_TIMEDOUT) /\
  (code e = kNetworkError <->
   rc <> CURLE_OK /\ rc <> CURLE_OPERATION_TIMEDOUT) /\
  (msg e = "" <-> rc = CURLE_OK) /\
  (rc <> CURLE_OK ->
   String.prefix ("curl " +:+ (if rc =? CURLE_OPERATION_TIMEDOUT
                               then "timeout" else "error") +:+
                  strerror rc) (msg e) = true) /\
  (forall errbuf', c_str errbuf' = c_str errbuf ->
                   TranslateError strerror rc errbuf' = e).
Proof.
  cbv zeta.
  assert (Hcases : TranslateError strerror rc errbuf =
    if rc =? CURLE_OK then mkError kOk ""
    else mkError (if rc =? CURLE_OPERATION_TIMEDOUT then kTimedOut
                  else kNetworkError)
           (("curl " +:+ (if rc =? CURLE_OPERATION_TIMEDOUT
                          then "timeout" else "error") +:+ strerror rc) +:+
            (if String.eqb (c_str errbuf) "" then ""
             else ": " +:+ c_str errbuf))).
  { unfold TranslateError. rewrite strlen_zero.
    destruct (rc =? CURLE_OK); [done|].
    destruct (rc =? CURLE_OPERATION_TIMEDOUT),
             (String.eqb (c_str errbuf) ""); cbn [negb];
      rewrite ?append_nil_r, ?append_assoc; reflexivity. }
  split_and!.
  - rewrite Hcases.
    destruct (Z.eqb_spec rc CURLE_OK), (Z.eqb_spec rc CURLE_OPERATION_TIMEDOUT);
      cbn; split; congruence.
  - rewrite Hcases.
    destruct (Z.eqb_spec rc CURLE_OK), (Z.eqb_spec rc CURLE_OPERATION_TIMEDOUT);
      cbn; split; intros; try congruence;
      unfold CURLE_OK, CURLE_OPERATION_TIMEDOUT in *; lia.
  - rewrite Hcases.
    destruct (Z.eqb_spec rc CURLE_OK), (Z.eqb_spec rc CURLE_OPERATION_TIMEDOUT);
      cbn; split; intros; try congruence; try tauto.
  - rewrite Hcases.
    destruct (Z.eqb_spec rc CURLE_OK); cbn [msg]; [done|].
    split; [|done].
    by destruct (rc =? CURLE_OPERATION_TIMEDOUT).
  - intros Hne. rewrite Hcases.
    destruct (Z.eqb_spec rc CURLE_OK); [done|]. cbn [msg].
    apply prefix_append.
  - intros b Hb. by apply TranslateError_c_str.
Qed.

(** A refused connection with a detail. *)
Lemma TranslateError_kinds_witness :
  7 <> CURLE_OK /\
  String.prefix "curl errorCouldn't connect to server"
    (msg (TranslateError Samples.strerror 7 "refused")) = true.
Proof.
  assert (H : 7 <> CURLE_OK) by discriminate.
  split; [exact H|].
  exact (proj1 (proj2 (proj2 (proj2 (proj2
    (TranslateError_kinds Samples.strerror 7 "refused"))))) H).
Defined.

(** ** The setters, continued *)

(** X3: how setter calls combine.  A setter writes its own members and
    nothing else, so two calls of different setters give the same object in
    either order, and of two calls of the same setter the later one alone
    counts.  No setter touches the handle, the error buffer or the
    connection count. *)
Theorem setters_combine (c : EasyCurl) (s1 s2 : Setter) :
  (setter_kind s1 <> setter_kind s2 ->
   apply_setter (apply_setter c s1) s2 = apply_setter (apply_setter c s2) s1) /\
  (setter_kind s1 = setter_kind s2 ->
   apply_setter (apply_setter c s1) s2 = apply_setter c s2) /\
  curl_ (apply_setter c s1) = curl_ c /\
  errbuf_ (apply_setter c s1) = errbuf_ c /\
  num_connects (apply_setter c s1) = num_connects c.
Proof.
  split_and!.
  - destruct s1, s2; cbn; intros H; try done.
  - destruct s1, s2; cbn; intros H; try done.
  - by destruct s1.
  - by destruct s1.
  - by destruct s1.
Qed.

(** A timeout and credentials in either order; a timeout set twice. *)
Lemma setters_combine_witness :
  apply_setters [SetTimeout 3; SetAuth 1 "u" "p"] Samples.fresh =
  apply_setters [SetAuth 1 "u" "p"; SetTimeout 3] Samples.fresh /\
  apply_setters [SetTimeout 3; SetTimeout 7] Samples.fresh =
  apply_setters [SetTimeout 7] Samples.fresh.
Proof.
  split.
  - refine (proj1 (setters_combine Samples.fresh (SetTimeout 3)
                     (SetAuth 1 "u" "p")) _).
    discriminate.
  - exact (proj1 (proj2 (setters_combine Samples.fresh (SetTimeout 3)
                           (SetTimeout 7))) eq_refl).
Defined.

(** ** Every way a request ends *)

Section Endings.

Context (T : Transport).

Lemma last_setting_applied o l :
  last_setting o l = None -> last_setting o (applied T l) = None.
Proof.
  induction l as [|[o' v] l IH]; [done|]. cbn [last_setting applied].
  destruct (last_setting o l) eqn:E; [done|].
  case_decide; [done|]. intros _.
  destruct (setopt_code T o' v =? CURLE_OK); [|done].
  cbn [last_setting]. rewrite IH by done. by rewrite decide_False.
Qed.

(** The handle after a call, however the call ended: the options up to the
    first refusal are on it. *)
Lemma call_handle url post_data headers obj dst0 :
  curl_ (client (call (DoRequest T url post_data headers) obj dst0)) =
  store (applied T (request_plan obj url post_data headers)) (curl_ obj).
Proof.
  rewrite call_DoRequest. cbv zeta. unfold request_plan.
  rewrite applied_app.
  destruct (Z.eqb_spec (refusal T (pre_plan obj)) CURLE_OK) as [E1|E1];
    cbn [negb]; [|reflexivity].
  rewrite (applied_all T _ E1).
  destruct (Z.eqb_spec (refusal T (post_plan obj url post_data
    (map c_str headers))) CURLE_OK) as [E2|E2]; cbn [negb].
  - rewrite (applied_all T _ E2). cbn [client].
    by destruct (transfer_frame T (mkMachine
      (with_curl (store (pre_plan obj ++ post_plan obj url post_data
         (map c_str headers))) (with_errbuf clear_errbuf obj))
      "" (map c_str headers) [])) as (_ & _ & ->).
  - cbn. by rewrite store_app.
Qed.

(** The object after a call: the configuration is the one before the call;
    the handle, the error buffer and the connection count may differ. *)
Lemma call_client url post_data headers obj dst0 :
  exists h e n,
    client (call (DoRequest T url post_data headers) obj dst0) =
    with_curl (fun _ => h)
      (with_num_connects n (with_errbuf (fun _ => e) obj)).
Proof.
  rewrite call_DoRequest. cbv zeta.
  destruct (negb (refusal T (pre_plan obj) =? CURLE_OK)).
  { destruct obj. unfold with_curl, with_num_connects, with_errbuf. cbn.
    do 3 eexists. reflexivity. }
  destruct (negb (refusal T (post_plan _ _ _ _) =? CURLE_OK)).
  { destruct obj. unfold with_curl, with_num_connects, with_errbuf. cbn.
    do 3 eexists. reflexivity. }
  cbn [client].
  destruct (transfer_self T (mkMachine
    (with_curl (store (pre_plan obj ++ post_plan obj url post_data
       (map c_str headers))) (with_errbuf clear_errbuf obj))
    "" (map c_str headers) [])) as (e & n & ->).
  destruct obj. unfold with_curl, with_num_connects, with_errbuf. cbn.
  do 3 eexists. reflexivity.
Qed.

Lemma TranslateError_no_detail rc b :
  c_str b = "" -> rc <> CURLE_OK ->
  TranslateError (curl_easy_strerror T) rc b =
  if rc =? CURLE_OPERATION_TIMEDOUT
  then mkError kTimedOut ("curl timeout" +:+ curl_easy_strerror T rc)
  else mkError kNetworkError ("curl error" +:+ curl_easy_strerror T rc).
Proof.
  intros Hb Hrc. unfold TranslateError. rewrite strlen_zero, Hb.
  by destruct (Z.eqb_spec rc CURLE_OK).
Qed.

Lemma applied_refusal_split l :
  refusal T l <> CURLE_OK ->
  exists before o v rest,
    l = before ++ (o, v) :: rest /\ applied T l = before /\
    setopt_code T o v = refusal T l.
Proof.
  induction l as [|[o v] l IH]; cbn [refusal applied]; [done|].
  destruct (setopt_code T o v =? CURLE_OK) eqn:E; intros H.
  - destruct (IH H) as (before & o' & v' & rest & Hl & Ha & Hrc).
    exists ((o, v) :: before), o', v', rest. by rewrite Hl at 1; rewrite Ha.
  - by exists [], o, v, l.
Qed.

Lemma translate_ok_bool rc b :
  bool_decide (code (TranslateError (curl_easy_strerror T) rc b) = kOk) =
  (rc =? CURLE_OK).
Proof.
  destruct (Z.eqb_spec rc CURLE_OK) as [->|H].
  - by apply bool_decide_eq_true_2.
  - apply bool_decide_eq_false_2. by apply TranslateError_refused.
Qed.

(** The call and its result when every option is accepted: the transfer,
    then the two queries, then the status check. *)
Lemma call_transfer url post_data headers obj dst0 :
  configured T obj url post_data headers = true ->
  call (DoRequest T url post_data headers) obj dst0 =
  let h := request_handle obj url post_data headers in
  let pr := perform T h in
  let detail :=
    if decide (h !! CURLOPT_ERRORBUFFER = Some OptErrbuf)
    then pr_errbuf pr else clear_errbuf (errbuf_ obj) in
  let c2 := with_curl (fun _ => h) (with_errbuf (fun _ => detail) obj) in
  let body := concat_chunks (pr_chunks pr) in
  let slist := map c_str headers in
  let translate rc := TranslateError (curl_easy_strerror T) rc detail in
  let n := getinfo T h CURLINFO_NUM_CONNECTS in
  let s := getinfo T h CURLINFO_RESPONSE_CODE in
  if negb (pr_code pr =? CURLE_OK) then
    mkCallResult c2 body (Returned (translate (pr_code pr))) [slist]
  else if negb (n.1 =? CURLE_OK) then
    mkCallResult c2 body (Returned (translate n.1)) [slist]
  else
    let c3 := with_num_connects (static_cast_int n.2) c2 in
    if negb (s.1 =? CURLE_OK) then
      mkCallResult c3 body (Returned (translate s.1)) [slist]
    else if (s.2 <? 200) || (s.2 >=? 300) then
      match literal_plus "HTTP " s.2 with
      | Some text =>
          mkCallResult c3 body (Returned (mkError kRemoteError text)) [slist]
      | None => mkCallResult c3 body Undefined []
      end
    else mkCallResult c3 body (Returned (Error_of kOk)) [slist].
Proof.
  intros H. rewrite call_configured by done. cbv zeta.
  destruct (request_handle_writes obj url post_data headers) as [Hf Hd].
  unfold transfer, ready. cbv zeta.
  cbn [self with_self with_curl with_errbuf curl_].
  rewrite (decide_True (P := _ /\ _)) by done.
  rewrite !translate_ok_bool.
  set (h := request_handle obj url post_data headers).
  destruct (decide (h !! CURLOPT_ERRORBUFFER = Some OptErrbuf));
    cbn [self with_self with_dst with_curl with_errbuf curl_ errbuf_];
    repeat case_match; cbn -[deliver concat_chunks] in *; simplify_eq;
    rewrite ?deliver_concat; reflexivity.
Qed.

(** The call and its result when an option is refused. *)
Lemma call_refused url post_data headers obj dst0 :
  configured T obj url post_data headers = false ->
  let rc := refusal T (request_plan obj url post_data headers) in
  let r := call (DoRequest T url post_data headers) obj dst0 in
  rc <> CURLE_OK /\
  outcome r =
    Returned (TranslateError (curl_easy_strerror T) rc
                (clear_errbuf (errbuf_ obj))) /\
  buffer r = "" /\
  num_connects (client r) = num_connects obj.
Proof.
  intros H. cbv zeta. unfold configured in H. apply Z.eqb_neq in H.
  split; [done|]. revert H. unfold request_plan.
  rewrite call_DoRequest, refusal_app. cbv zeta.
  destruct (Z.eqb_spec (refusal T (pre_plan obj)) CURLE_OK) as [E1|E1];
    cbn [negb]; [|done].
  intros E2. by rewrite (proj2 (Z.eqb_neq _ _) E2).
Qed.

Lemma TranslateError_code_refused rc b :
  rc <> CURLE_OK ->
  code (TranslateError (curl_easy_strerror T) rc b) =
  if rc =? CURLE_OPERATION_TIMEDOUT then kTimedOut else kNetworkError.
Proof.
  intros H. unfold TranslateError.
  destruct (Z.eqb_spec rc CURLE_OK); [done|].
  by destruct (rc =? CURLE_OPERATION_TIMEDOUT).
Qed.

Lemma request_handle_errbuf obj url post_data headers :
  request_handle obj url post_data headers !! CURLOPT_ERRORBUFFER =
  curl_ obj !! CURLOPT_ERRORBUFFER.
Proof.
  unfold request_handle. rewrite lookup_store.
  by destruct (request_plan_table obj url post_data headers)
    as (_ & _ & _ & _ & _ & _ & _ & _ & _ & _ & _ & _ & _ & _ & ->).
Qed.

End Endings.

(** X4: a refused option ends the call at once.  When [curl_easy_setopt]
    refuses one of the options of a request, the call returns that code
    translated ([kTimedOut] for the timeout code, else [kNetworkError]) with
    the generic text alone as its message: no detail, whatever an earlier
    call left in the error buffer.  The options before the refused one are
    on the handle and none of those after it are set; no transfer takes
    place: the destination is empty and the connection count is the one
    before the call. *)
Theorem refused_option_ends_call (T : Transport) (obj : EasyCurl)
    (url : string) (post_data : option string) (headers : list string)
    (dst0 : string) :
  let plan := request_plan obj url post_data headers in
  let rc := refusal T plan in
  let r := call (DoRequest T url post_data headers) obj dst0 in
  configured T obj url post_data headers = false ->
  rc <> CURLE_OK /\
  outcome r =
    Returned (if rc =? CURLE_OPERATION_TIMEDOUT
              then mkError kTimedOut
                     ("curl timeout" +:+ curl_easy_strerror T rc)
              else mkError kNetworkError
                     ("curl error" +:+ curl_easy_strerror T rc)) /\
  buffer r = "" /\
  num_connects (client r) = num_connects obj /\
  exists before o v rest,
    plan = before ++ (o, v) :: rest /\
    setopt_code T o v = rc /\
    curl_ (client r) = store before (curl_ obj).
Proof.
  cbv zeta. intros H.
  destruct (call_refused T url post_data headers obj dst0 H)
    as (Hrc & Ho & Hb & Hn).
  split_and!; try done.
  - rewrite Ho. f_equal.
    apply TranslateError_no_detail; [apply c_str_clear_errbuf|done].
  - destruct (applied_refusal_split T _ Hrc)
      as (before & o & v & rest & Hplan & Happ & Hcode).
    exists before, o, v, rest. split_and!; try done.
    by rewrite call_handle, Happ.
Qed.

(** Basic authentication behind a libcurl without it: the very first option
    is refused and nothing reaches the handle. *)
Lemma refused_option_ends_call_witness :
  let obj := (set_auth CurlAuthType.BASIC "user" "secret" Samples.fresh).1 in
  let r := call (DoRequest Samples.web_without_auth "http://host/ok" None [])
             obj "old" in
  configured Samples.web_without_auth obj "http://host/ok" None [] = false /\
  outcome r =
    Returned (mkError kNetworkError
      "curl errorAn unknown option was passed in to libcurl") /\
  buffer r = "" /\ num_connects (client r) = 0.
Proof.
  cbv zeta.
  pose proof (refused_option_ends_call Samples.web_without_auth
    (set_auth CurlAuthType.BASIC "user" "secret" Samples.fresh).1
    "http://host/ok" None [] "old" eq_refl) as (_ & Ho & Hb & Hn & _).
  split; [reflexivity|]. split; [exact Ho|]. split; [exact Hb|exact Hn].
Defined.

(** X5: a transfer that fails.  When every option was accepted and
    [curl_easy_perform] returns an error code, the call returns that code
    translated: [kTimedOut] exactly for the timeout code, [kNetworkError]
    for every other; the detail in the message is what the transport wrote
    for this transfer if the error buffer is attached to the handle, and
    absent if it is not.  The destination is not cleared again: it holds the
    chunks that arrived before the failure.  The connection count is the one
    before the call, and the header list is released. *)
Theorem failed_transfer (T : Transport) (obj : EasyCurl) (url : string)
    (post_data : option string) (headers : list string) (dst0 : string) :
  let pr := perform T (request_handle obj url post_data headers) in
  let r := call (DoRequest T url post_data headers) obj dst0 in
  let detail :=
    if decide (curl_ obj !! CURLOPT_ERRORBUFFER = Some OptErrbuf)
    then pr_errbuf pr else "" in
  configured T obj url post_data headers = true ->
  pr_code pr <> CURLE_OK ->
  outcome r =
    Returned (TranslateError (curl_easy_strerror T) (pr_code pr) detail) /\
  (exists e, outcome r = Returned e /\
     code e = if pr_code pr =? CURLE_OPERATION_TIMEDOUT
              then kTimedOut else kNetworkError) /\
  buffer r = concat_chunks (pr_chunks pr) /\
  num_connects (client r) = num_connects obj /\
  slist_frees r = [map c_str headers].
Proof.
  cbv zeta. intros H Hp. rewrite call_transfer by done. cbv zeta.
  rewrite (proj2 (Z.eqb_neq _ _) Hp). cbn [negb outcome buffer client].
  rewrite request_handle_errbuf.
  assert (Hd : forall rc,
    TranslateError (curl_easy_strerror T) rc
      (if decide (curl_ obj !! CURLOPT_ERRORBUFFER = Some OptErrbuf)
       then pr_errbuf (perform T (request_handle obj url post_data headers))
       else clear_errbuf (errbuf_ obj)) =
    TranslateError (curl_easy_strerror T) rc
      (if decide (curl_ obj !! CURLOPT_ERRORBUFFER = Some OptErrbuf)
       then pr_errbuf (perform T (request_handle obj url post_data headers))
       else "")).
  { intros rc. apply TranslateError_c_str.
    case_decide; [done|apply c_str_clear_errbuf]. }
  rewrite Hd. split_and!; try done.
  eexists. split; [done|]. by apply TranslateError_code_refused.
Qed.

(** A host that refuses connections, on the sample web. *)
Lemma failed_transfer_witness :
  let r := call (DoRequest Samples.web "http://down/" None [])
             Samples.fresh "old" in
  outcome r =
    Returned (mkError kNetworkError
      ("curl errorCouldn't connect to server: " +:+
       "Failed to connect to down port 80")) /\
  buffer r = "" /\ num_connects (client r) = 0.
Proof.
  cbv zeta.
  assert (Hp : pr_code (perform Samples.web
    (request_handle Samples.fresh "http://down/" None [])) <> CURLE_OK)
    by (vm_compute; discriminate).
  pose proof (failed_transfer Samples.web Samples.fresh "http://down/" None
    [] "old" eq_refl Hp) as (Ho & _ & Hb & Hn & _).
  split; [exact Ho|]. split; [exact Hb|exact Hn].
Defined.

(** X6: what a request can return.  A call that returns, returns one of
    [kOk], [kNetworkError], [kTimedOut], [kRemoteError].  It returns [kOk]
    only with an empty message and only when every option was accepted, the
    transfer and both queries succeeded, and the status is in [200, 300). *)
Theorem returned_kinds (T : Transport) (obj : EasyCurl) (url : string)
    (post_data : option string) (headers : list string) (dst0 : string)
    (e : Error) :
  let h := request_handle obj url post_data headers in
  outcome (call (DoRequest T url post_data headers) obj dst0) = Returned e ->
  (code e = kOk \/ code e = kNetworkError \/ code e = kTimedOut \/
   code e = kRemoteError) /\
  (code e = kOk ->
   msg e = "" /\
   configured T obj url post_data headers = true /\
   pr_code (perform T h) = CURLE_OK /\
   (getinfo T h CURLINFO_NUM_CONNECTS).1 = CURLE_OK /\
   (getinfo T h CURLINFO_RESPONSE_CODE).1 = CURLE_OK /\
   200 <= (getinfo T h CURLINFO_RESPONSE_CODE).2 < 300).
Proof.
  cbv zeta.
  destruct (configured T obj url post_data headers) eqn:Hc.
  - rewrite call_transfer by done. cbv zeta.
    destruct (Z.eqb_spec (pr_code (perform T
      (request_handle obj url post_data headers))) CURLE_OK) as [Hp|Hp];
      cbn [negb].
    2: { cbn [outcome]. intros [= <-].
         rewrite TranslateError_code_refused by done.
         split; [|by case_match]. case_match; tauto. }
    destruct (Z.eqb_spec (getinfo T (request_handle obj url post_data headers)
      CURLINFO_NUM_CONNECTS).1 CURLE_OK) as [Hn|Hn]; cbn [negb].
    2: { cbn [outcome]. intros [= <-].
         rewrite TranslateError_code_refused by done.
         split; [|by case_match]. case_match; tauto. }
    destruct (Z.eqb_spec (getinfo T (request_handle obj url post_data headers)
      CURLINFO_RESPONSE_CODE).1 CURLE_OK) as [Hs|Hs]; cbn [negb].
    2: { cbn [outcome]. intros [= <-].
         rewrite TranslateError_code_refused by done.
         split; [|by case_match]. case_match; tauto. }
    destruct ((_ <? 200) || (_ >=? 300)) eqn:Hr.
    + destruct (literal_plus _ _); cbn [outcome]; intros [= <-]; cbn [code].
      split; [tauto|done].
    + cbn [outcome]. intros [= <-]. cbn [code msg Error_of].
      split; [tauto|]. intros _. split_and!; try done; lia.
  - destruct (call_refused T url post_data headers obj dst0 Hc)
      as (Hrc & -> & _). intros [= <-].
    rewrite TranslateError_code_refused by done.
    split; [|by case_match]. case_match; tauto.
Qed.

(** The page of the sample web. *)
Lemma returned_kinds_witness :
  200 <= (getinfo Samples.web
            (request_handle Samples.fresh "http://host/ok" None [])
            CURLINFO_RESPONSE_CODE).2 < 300.
Proof.
  pose proof (returned_kinds Samples.web Samples.fresh "http://host/ok" None
    [] "" (mkError kOk "") eq_refl) as [_ H].
  apply H. reflexivity.
Defined.



(** ** The handle from one request to the next *)

Section Handles.

Context (T : Transport).

Lemma call_lookup url post_data headers obj dst0 o :
  curl_ (client (call (DoRequest T url post_data headers) obj dst0)) !! o =
  match last_setting o (applied T (request_plan obj url post_data headers))
  with
  | Some v => Some v
  | None => curl_ obj !! o
  end.
Proof. rewrite call_handle. apply lookup_store. Qed.

Lemma last_setting_In o v l : last_setting o l = Some v -> In (o, v) l.
Proof.
  induction l as [|[o' v'] l IH]; [done|]. cbn [last_setting].
  destruct (last_setting o l).
  - intros [= <-]. right. by apply IH.
  - case_decide; [|done]. intros [= <-]. subst. by left.
Qed.

Lemma applied_In s l : In s (applied T l) -> In s l.
Proof.
  induction l as [|[o v] l IH]; [done|]. cbn [applied].
  destruct (setopt_code T o v =? CURLE_OK); [|done].
  intros [<-|H]; [by left|right; by apply IH].
Qed.

(** The options that a request only ever switches on. *)
Lemma request_plan_flags c url post_data headers o v :
  In (o, v) (request_plan c url post_data headers) ->
  o = CURLOPT_VERBOSE \/ o = CURLOPT_FAILONERROR \/ o = CURLOPT_HEADER \/
  o = CURLOPT_NOSIGNAL ->
  v = OptLong 1.
Proof.
  unfold request_plan, pre_plan, post_plan. rewrite !in_app_iff.
  intros H Ho.
  repeat match goal with
  | H : _ \/ _ |- _ => destruct H
  | H : In _ (if ?b then _ else _) |- _ => destruct b
  | H : In _ (match ?x with Some _ => _ | None => _ end) |- _ => destruct x
  | H : In _ (_ :: _) |- _ => destruct H
  | H : In _ [] |- _ => destruct H
  | H : (_, _) = (_, _) |- _ => injection H as <- <-
  end; subst; try done.
Qed.

Lemma apply_setter_handle c s : curl_ (apply_setter c s) = curl_ c.
Proof. by destruct s. Qed.

(** The setters and what a call does to the object do not interfere. *)
Lemma apply_setters_frame setters f n g c :
  apply_setters setters
    (with_curl f (with_num_connects n (with_errbuf g c))) =
  with_curl f (with_num_connects n (with_errbuf g (apply_setters setters c))).
Proof.
  revert c. induction setters as [|s setters IH]; intros c; [done|].
  cbn [apply_setters foldl].
  fold (apply_setters setters (apply_setter c s)). rewrite <- IH.
  unfold apply_setters. f_equal. by destruct s.
Qed.

End Handles.

(** X8: the first request of a new client.  The constructor leaves one
    option on the handle, the error buffer, and a configuration in which
    nothing is enabled: a first [FetchURL] that gets as far as the transfer
    hands the transport the error buffer, the header list, the URL and the
    write callback with its target, and no other option: no authentication,
    no time limit, no DNS servers, no request body.  The connection count of
    a new client is 0. *)
Theorem first_fetch_of_new_client (T : Transport) (storage : string)
    (c : EasyCurl) (url : string) (headers : list string) (dst0 : string) :
  EasyCurl_new T storage = Some c ->
  num_connects c = 0 /\
  (configured T c url None headers = true ->
   curl_ (client (FetchURL T c url dst0 headers)) =
   <[CURLOPT_WRITEDATA := OptDst]>
     (<[CURLOPT_WRITEFUNCTION := OptWriteCallback]>
        (<[CURLOPT_URL := OptString (c_str url)]>
           (<[CURLOPT_HTTPHEADER := OptSlist (map c_str headers)]>
              {[CURLOPT_ERRORBUFFER := OptErrbuf]})))).
Proof.
  unfold EasyCurl_new.
  destruct (setopt_code T CURLOPT_ERRORBUFFER OptErrbuf =? CURLE_OK);
    [|done].
  intros [= <-]. split; [done|]. intros H.
  rewrite FetchURL_DoRequest, call_configured_handle by done.
  reflexivity.
Qed.

(** A new client on the sample web fetches the page. *)
Lemma first_fetch_of_new_client_witness :
  curl_ (client (FetchURL Samples.web Samples.fresh "http://host/ok" ""
                   ["Accept: */*"])) =
  <[CURLOPT_WRITEDATA := OptDst]>
    (<[CURLOPT_WRITEFUNCTION := OptWriteCallback]>
       (<[CURLOPT_URL := OptString "http://host/ok"]>
          (<[CURLOPT_HTTPHEADER := OptSlist ["Accept: */*"]]>
             {[CURLOPT_ERRORBUFFER := OptErrbuf]}))).
Proof.
  exact (proj2 (first_fetch_of_new_client Samples.web "" Samples.fresh
    "http://host/ok" ["Accept: */*"] "" eq_refl) eq_refl).
Defined.

(** X9: the error buffer stays attached.  No request sets
    [CURLOPT_ERRORBUFFER] and no setter touches the handle, so through any
    sequence of setter calls and requests, whatever their results, the
    handle of a constructed client keeps the error buffer that the
    constructor attached.  At every point of the client's life a transfer
    that fails is therefore reported with the detail the transport wrote for
    that transfer. *)
Theorem error_buffer_stays_attached (T : Transport) (storage : string)
    (ops : list Op) (c0 c : EasyCurl) (d d' : string) :
  EasyCurl_new T storage = Some c0 ->
  run T ops (c0, d) = Some (c, d') ->
  curl_ c !! CURLOPT_ERRORBUFFER = Some OptErrbuf /\
  forall (url : string) (post_data : option string) (headers : list string)
         (dst0 : string),
    let pr := perform T (request_handle c url post_data headers) in
    configured T c url post_data headers = true ->
    pr_code pr <> CURLE_OK ->
    outcome (call (DoRequest T url post_data headers) c dst0) =
    Returned (TranslateError (curl_easy_strerror T) (pr_code pr)
                (pr_errbuf pr)).
Proof.
  intros Hnew Hrun.
  assert (Hcall : forall url post_data headers obj dst0,
    curl_ (client (call (DoRequest T url post_data headers) obj dst0))
      !! CURLOPT_ERRORBUFFER = curl_ obj !! CURLOPT_ERRORBUFFER).
  { intros url post_data headers obj dst0.
    rewrite call_lookup, last_setting_applied; [done|].
    by destruct (request_plan_table obj url post_data headers)
      as (_ & _ & _ & _ & _ & _ & _ & _ & _ & _ & _ & _ & _ & _ & ->). }
  assert (Hkept : curl_ c !! CURLOPT_ERRORBUFFER =
                  curl_ c0 !! CURLOPT_ERRORBUFFER).
  { clear Hnew. revert c0 d Hrun.
    induction ops as [|op ops IH]; intros c0 d; cbn [run].
    { by intros [= <- <-]. }
    destruct (step T (c0, d) op) as [[c1 d1]|] eqn:Hs; [|done].
    intros Hrun. rewrite (IH _ _ Hrun).
    destruct op as [s|url headers|url data headers];
      unfold step in Hs; cbn [fst snd] in Hs.
    - injection Hs as <- <-. by rewrite apply_setter_handle.
    - rewrite FetchURL_DoRequest in Hs.
      destruct (outcome _) in Hs; [|done]. injection Hs as <- <-.
      apply Hcall.
    - rewrite PostToURL_DoRequest in Hs.
      destruct (outcome _) in Hs; [|done]. injection Hs as <- <-.
      apply Hcall. }
  assert (Hatt : curl_ c !! CURLOPT_ERRORBUFFER = Some OptErrbuf).
  { rewrite Hkept. unfold EasyCurl_new in Hnew.
    destruct (setopt_code T CURLOPT_ERRORBUFFER OptErrbuf =? CURLE_OK);
      [|done].
    injection Hnew as <-. cbn [curl_]. apply lookup_singleton_eq. }
  split; [exact Hatt|].
  intros url post_data headers dst0. cbv zeta. intros Hc Hp.
  rewrite call_transfer by done. cbv zeta.
  rewrite (proj2 (Z.eqb_neq _ _) Hp). cbn [negb outcome].
  rewrite request_handle_errbuf, decide_True by done. reflexivity.
Qed.

(** A client on the sample web fetches a page, is given a time limit, and
    then turns to a host that is down. *)
Lemma error_buffer_stays_attached_witness :
  let ops := [Fetch "http://host/ok" []; Configure (SetTimeout 3)] in
  let r1 := FetchURL Samples.web Samples.fresh "http://host/ok" "" [] in
  let c := set_timeout 3 (client r1) in
  run Samples.web ops (Samples.fresh, "") = Some (c, buffer r1) /\
  curl_ c !! CURLOPT_ERRORBUFFER = Some OptErrbuf /\
  outcome (FetchURL Samples.web c "http://down/" (buffer r1) []) =
    Returned (mkError kNetworkError
      ("curl errorCouldn't connect to server: " +:+
       "Failed to connect to down port 80")).
Proof.
  intros ops r1 c.
  assert (E : run Samples.web ops (Samples.fresh, "") = Some (c, buffer r1))
    by (vm_compute; reflexivity).
  split; [exact E|].
  destruct (error_buffer_stays_attached Samples.web "" ops Samples.fresh c ""
    (buffer r1) eq_refl E) as [Hatt Hfail].
  split; [exact Hatt|].
  assert (Hc : configured Samples.web c "http://down/" None [] = true)
    by (vm_compute; reflexivity).
  assert (Hp : pr_code (perform Samples.web
    (request_handle c "http://down/" None [])) <> CURLE_OK)
    by (vm_compute; discriminate).
  rewrite FetchURL_DoRequest, (Hfail "http://down/" None [] (buffer r1) Hc Hp).
  vm_compute. reflexivity.
Defined.

(** X10: what is switched on stays on.  [CURLOPT_VERBOSE],
    [CURLOPT_FAILONERROR], [CURLOPT_HEADER] and [CURLOPT_NOSIGNAL] are only
    ever set to 1.  Once one of them is 1 on the handle it is 1 for every
    later request of the client, whatever the setters are given in between:
    [set_verbose(false)], [set_fail_on_http_error(false)] and
    [set_return_headers(false)] after a request with the flag on change
    nothing for the transport. *)
Theorem flags_stay_on (T : Transport) (ops : list Op) (c c' : EasyCurl)
    (d d' : string) (o : CURLoption) :
  run T ops (c, d) = Some (c', d') ->
  o = CURLOPT_VERBOSE \/ o = CURLOPT_FAILONERROR \/ o = CURLOPT_HEADER \/
  o = CURLOPT_NOSIGNAL ->
  curl_ c !! o = Some (OptLong 1) ->
  curl_ c' !! o = Some (OptLong 1).
Proof.
  intros Hrun Ho.
  assert (Hcall : forall url post_data headers obj dst0,
    curl_ obj !! o = Some (OptLong 1) ->
    curl_ (client (call (DoRequest T url post_data headers) obj dst0)) !! o =
    Some (OptLong 1)).
  { intros url post_data headers obj dst0 H. rewrite call_lookup.
    destruct (last_setting _ _) as [v|] eqn:E; [|done].
    apply last_setting_In, applied_In in E.
    by rewrite (request_plan_flags _ _ _ _ _ _ E Ho). }
  revert c d Hrun. induction ops as [|op ops IH]; intros c d; cbn [run].
  { by intros [= <- <-]. }
  destruct (step T (c, d) op) as [[c1 d1]|] eqn:Hs; [|done].
  intros Hrun H. apply (IH _ _ Hrun).
  destruct op as [s|url headers|url data headers];
      unfold step in Hs; cbn [fst snd] in Hs.
  - injection Hs as <- <-. by rewrite apply_setter_handle.
  - rewrite FetchURL_DoRequest in Hs.
    destruct (outcome _) in Hs; [|done]. injection Hs as <- <-.
    by apply Hcall.
  - rewrite PostToURL_DoRequest in Hs.
    destruct (outcome _) in Hs; [|done]. injection Hs as <- <-.
    by apply Hcall.
Qed.

(** Header echo switched on for one request and off for the next. *)
Lemma flags_stay_on_witness :
  let c1 := client (FetchURL Samples.web
                      (set_return_headers true Samples.fresh)
                      "http://host/ok" "" []) in
  let r2 := FetchURL Samples.web (set_return_headers false c1)
              "http://host/ok" "" [] in
  run Samples.web
    [Configure (SetReturnHeaders false); Fetch "http://host/ok" []]
    (c1, "") = Some (client r2, buffer r2) /\
  return_headers_ (client r2) = false /\
  curl_ (client r2) !! CURLOPT_HEADER = Some (OptLong 1).
Proof.
  intros c1 r2.
  assert (E : run Samples.web
    [Configure (SetReturnHeaders false); Fetch "http://host/ok" []]
    (c1, "") = Some (client r2, buffer r2)) by (vm_compute; reflexivity).
  split; [exact E|]. split; [vm_compute; reflexivity|].
  apply (flags_stay_on _ _ _ _ _ _ CURLOPT_HEADER E); [tauto|].
  vm_compute. reflexivity.
Defined.

(** X11: a fetch does not undo a post.  [DoRequest] sets
    [CURLOPT_POSTFIELDS] when it is given a body and at no other place: a
    request without a body neither sets nor clears the option, and no setter
    touches the handle.  After a [PostToURL] that got as far as the
    transfer the option is set, and through any sequence of setter calls and
    [FetchURL] calls that follows, whatever they return, the entry stays as
    that post left it: every later [FetchURL] hands the transport a handle
    that still carries the body option of the last post.  (The entry is the
    pointer [post_data.c_str()] given during the post, recorded here with
    the bytes it then pointed to; what a later transfer reads through it is
    the caller's string as it then is, of which nothing is said here.) *)
Theorem fetch_does_not_undo_post (T : Transport) (obj : EasyCurl)
    (url data : string) (headers : list string) (dst0 : string)
    (ops : list Op) (c' : EasyCurl) (d' : string) :
  let r1 := PostToURL T obj url data dst0 headers in
  configured T obj url (Some data) headers = true ->
  forallb (fun op => negb (is_post op)) ops = true ->
  run T ops (client r1, buffer r1) = Some (c', d') ->
  curl_ (client r1) !! CURLOPT_POSTFIELDS <> None /\
  curl_ c' !! CURLOPT_POSTFIELDS = curl_ (client r1) !! CURLOPT_POSTFIELDS /\
  forall (url' : string) (headers' : list string) (dst1 : string),
    request_handle c' url' None headers' !! CURLOPT_POSTFIELDS =
      curl_ (client r1) !! CURLOPT_POSTFIELDS /\
    curl_ (client (FetchURL T c' url' dst1 headers')) !! CURLOPT_POSTFIELDS =
      curl_ (client r1) !! CURLOPT_POSTFIELDS.
Proof.
  cbv zeta. intros Hc Hops Hrun.
  assert (Hfetch : forall url' headers' c dst1,
    curl_ (client (FetchURL T c url' dst1 headers')) !! CURLOPT_POSTFIELDS =
    curl_ c !! CURLOPT_POSTFIELDS).
  { intros url' headers' c dst1.
    rewrite FetchURL_DoRequest, call_lookup, last_setting_applied; [done|].
    by destruct (request_plan_table c url' None headers')
      as (_ & _ & _ & _ & _ & _ & _ & _ & _ & _ & _ & _ & _ & -> & _). }
  assert (Hkept : curl_ c' !! CURLOPT_POSTFIELDS =
    curl_ (client (PostToURL T obj url data dst0 headers))
      !! CURLOPT_POSTFIELDS).
  { revert Hrun Hops.
    generalize (client (PostToURL T obj url data dst0 headers)) as c.
    generalize (buffer (PostToURL T obj url data dst0 headers)) as d.
    induction ops as [|op ops IH]; intros d c; cbn [run forallb].
    { by intros [= <- <-]. }
    destruct (step T (c, d) op) as [[c1 d1]|] eqn:Hs; [|done].
    intros Hrun [Hop Hops]%andb_prop. rewrite (IH _ _ Hrun Hops).
    destruct op as [s|url' headers'|url' data' headers'];
      unfold step in Hs; cbn [fst snd] in Hs; [| |done].
    - injection Hs as <- <-. by rewrite apply_setter_handle.
    - destruct (outcome _) in Hs; [|done]. injection Hs as <- <-.
      apply Hfetch. }
  split_and!.
  - rewrite PostToURL_DoRequest, call_configured_lookup by done.
    by destruct (request_plan_table obj url (Some data) headers)
      as (_ & _ & _ & _ & _ & _ & _ & _ & _ & _ & _ & _ & _ & -> & _).
  - exact Hkept.
  - intros url' headers' dst1. split.
    + rewrite <- Hkept. unfold request_handle. rewrite lookup_store.
      by destruct (request_plan_table c' url' None headers')
        as (_ & _ & _ & _ & _ & _ & _ & _ & _ & _ & _ & _ & _ & -> & _).
    + by rewrite Hfetch.
Qed.

(** A form is posted to the page of the sample web; header echo is switched
    on and the page is fetched. *)
Lemma fetch_does_not_undo_post_witness :
  let r1 := PostToURL Samples.web Samples.fresh "http://host/ok" "a=1" ""
              [] in
  let ops := [Configure (SetReturnHeaders true); Fetch "http://host/ok" []] in
  let r2 := FetchURL Samples.web (set_return_headers true (client r1))
              "http://host/ok" (buffer r1) [] in
  run Samples.web ops (client r1, buffer r1) = Some (client r2, buffer r2) /\
  curl_ (client r2) !! CURLOPT_POSTFIELDS <> None.
Proof.
  intros r1 ops r2.
  assert (E : run Samples.web ops (client r1, buffer r1) =
              Some (client r2, buffer r2)) by (vm_compute; reflexivity).
  split; [exact E|].
  destruct (fetch_does_not_undo_post Samples.web Samples.fresh
    "http://host/ok" "a=1" [] "" ops (client r2) (buffer r2) eq_refl eq_refl
    E) as (Hset & Hkept & _).
  by rewrite Hkept.
Defined.

(** X12: the body of a post is handed over as a C string.  [PostToURL]
    passes [post_data.c_str()] and no length: the transport is given the
    bytes before the first NUL byte of the body, and the whole call is the
    call with those bytes as body.  What follows a NUL byte is never sent. *)
Theorem post_body_ends_at_first_NUL (T : Transport) (obj : EasyCurl)
    (url a b : string) (headers : list string) (dst0 : string) :
  nul_free a = true ->
  let data := a +:+ String NUL b in
  PostToURL T obj url data dst0 headers = PostToURL T obj url a dst0 headers /\
  (configured T obj url (Some data) headers = true ->
   curl_ (client (PostToURL T obj url data dst0 headers))
     !! CURLOPT_POSTFIELDS = Some (OptString a)).
Proof.
  intros Ha. cbv zeta.
  assert (Hc : c_str (a +:+ String NUL b) = c_str a).
  { rewrite (c_str_nul_free a Ha). clear obj url headers dst0.
    induction a as [|x a IH]; [done|].
    rewrite append_cons. cbn [nul_free] in Ha. cbn [c_str].
    destruct (Ascii.eqb x NUL) eqn:E; [done|].
    cbn [negb andb] in Ha. by rewrite IH. }
  assert (Hplan : forall sl, post_plan obj url (Some (a +:+ String NUL b)) sl =
                             post_plan obj url (Some a) sl)
    by (intros sl; unfold post_plan; by rewrite Hc).
  split.
  - rewrite !PostToURL_DoRequest, !call_DoRequest. cbv zeta.
    by rewrite !Hplan.
  - intros H. rewrite PostToURL_DoRequest, call_configured_lookup by done.
    destruct (request_plan_table obj url (Some (a +:+ String NUL b)) headers)
      as (_ & _ & _ & _ & _ & _ & _ & _ & _ & _ & _ & _ & _ & -> & _).
    by rewrite Hc, (c_str_nul_free a Ha).
Qed.

(** A body of two fields with a NUL byte between them. *)
Lemma post_body_ends_at_first_NUL_witness :
  PostToURL Samples.web Samples.fresh "http://host/ok"
    ("a=1" +:+ String NUL "&b=2") "" [] =
  PostToURL Samples.web Samples.fresh "http://host/ok" "a=1" "" [].
Proof.
  exact (proj1 (post_body_ends_at_first_NUL Samples.web Samples.fresh
    "http://host/ok" "a=1" "&b=2" [] "" eq_refl)).
Defined.

(** X13: requests never change the configuration.  After any sequence of
    setter calls and requests, whatever the requests returned, the stored
    configuration is that of the setter calls alone, as if no request had
    been made: a request writes the handle, the error buffer and the
    connection count, and nothing else of the object. *)
Theorem requests_keep_the_configuration (T : Transport) (ops : list Op)
    (c c' : EasyCurl) (d d' : string) :
  run T ops (c, d) = Some (c', d') ->
  let s := apply_setters (setters_of ops) c in
  return_headers_ c' = return_headers_ s /\
  verbose_ c' = verbose_ s /\
  fail_on_http_error_ c' = fail_on_http_error_ s /\
  timeout_secs_ c' = timeout_secs_ s /\
  dns_servers_ c' = dns_servers_ s /\
  username_ c' = username_ s /\
  password_ c' = password_ s /\
  auth_type_ c' = auth_type_ s.
Proof.
  intros Hrun. cbv zeta.
  assert (exists h e n, c' =
    with_curl (fun _ => h) (with_num_connects n (with_errbuf (fun _ => e)
      (apply_setters (setters_of ops) c)))) as (h & e & n & ->).
  { revert c d Hrun. induction ops as [|op ops IH]; intros c d; cbn [run].
    - intros [= <- <-]. exists (curl_ c), (errbuf_ c), (num_connects_ c).
      by destruct c.
    - destruct (step T (c, d) op) as [[c1 d1]|] eqn:Hs; [|done].
      intros Hrun. destruct (IH _ _ Hrun) as (h & e & n & ->).
      destruct op as [s|url headers|url data headers];
        unfold step in Hs; cbn [fst snd] in Hs.
      + injection Hs as <- <-. by exists h, e, n.
      + rewrite FetchURL_DoRequest in Hs.
        destruct (outcome _) in Hs; [|done]. injection Hs as Hc _.
        cbn [setters_of]. exists h, e, n.
        destruct (call_client T url None headers c d)
          as (h1 & e1 & n1 & Hc1).
        rewrite <- Hc, Hc1, apply_setters_frame. reflexivity.
      + rewrite PostToURL_DoRequest in Hs.
        destruct (outcome _) in Hs; [|done]. injection Hs as Hc _.
        cbn [setters_of]. exists h, e, n.
        destruct (call_client T url (Some data) headers c d)
          as (h1 & e1 & n1 & Hc1).
        rewrite <- Hc, Hc1, apply_setters_frame. reflexivity. }
  done.
Qed.

(** A client is given a time limit, fetches from a host that is down, is
    set to verbose and posts a form. *)
Lemma requests_keep_the_configuration_witness :
  let ops := [Configure (SetTimeout 3); Fetch "http://down/" [];
              Configure (SetVerbose true);
              Post "http://host/ok" "a=1" []] in
  let r1 := FetchURL Samples.web (set_timeout 3 Samples.fresh)
              "http://down/" "" [] in
  let r2 := PostToURL Samples.web (set_verbose true (client r1))
              "http://host/ok" "a=1" (buffer r1) [] in
  run Samples.web ops (Samples.fresh, "") = Some (client r2, buffer r2) /\
  timeout_secs_ (client r2) = 3 /\ verbose_ (client r2) = true /\
  auth_type_ (client r2) = CurlAuthType.NONE.
Proof.
  intros ops r1 r2.
  assert (E : run Samples.web ops (Samples.fresh, "") =
              Some (client r2, buffer r2)) by (vm_compute; reflexivity).
  split; [exact E|].
  destruct (requests_keep_the_configuration _ _ _ _ _ _ E)
    as (_ & Hv & _ & Ht & _ & _ & _ & Ha).
  rewrite Ht, Hv, Ha. vm_compute. repeat split; reflexivity.
Defined.

(** X14: a request does not read the error buffer.  [DoRequest] writes
    [errbuf_[0] = 0] before anything else, so what an earlier request left
    in the buffer has no part in this one: the result, the bytes, the handle
    and the connection count are the same for every content of the buffer
    before the call.  The detail of an error message is never that of an
    earlier request. *)
Theorem stale_error_text_is_not_used (T : Transport) (obj : EasyCurl)
    (url : string) (post_data : option string) (headers : list string)
    (dst0 text : string) :
  let r := call (DoRequest T url post_data headers) obj dst0 in
  let r' := call (DoRequest T url post_data headers)
              (with_errbuf (fun _ => text) obj) dst0 in
  outcome r' = outcome r /\
  buffer r' = buffer r /\
  curl_ (client r') = curl_ (client r) /\
  num_connects (client r') = num_connects (client r) /\
  slist_frees r' = slist_frees r.
Proof.
  cbv zeta.
  assert (Hb : c_str (clear_errbuf text) =
               c_str (clear_errbuf (errbuf_ obj)))
    by (by rewrite !c_str_clear_errbuf).
  destruct (configured T obj url post_data headers) eqn:Hc.
  - assert (Hc' : configured T (with_errbuf (fun _ => text) obj) url
                    post_data headers = true) by exact Hc.
    rewrite !call_transfer by done. cbv zeta.
    change (request_handle (with_errbuf (fun _ => text) obj))
      with (request_handle obj).
    cbn [errbuf_ with_errbuf].
    set (h := request_handle obj url post_data headers).
    assert (Ht : forall rc,
      TranslateError (curl_easy_strerror T) rc
        (if decide (h !! CURLOPT_ERRORBUFFER = Some OptErrbuf)
         then pr_errbuf (perform T h) else clear_errbuf text) =
      TranslateError (curl_easy_strerror T) rc
        (if decide (h !! CURLOPT_ERRORBUFFER = Some OptErrbuf)
         then pr_errbuf (perform T h) else clear_errbuf (errbuf_ obj))).
    { intros rc. apply TranslateError_c_str. by case_decide. }
    rewrite !Ht.
    repeat case_match; done.
  - rewrite !call_DoRequest. cbv zeta.
    change (pre_plan (with_errbuf (fun _ => text) obj)) with (pre_plan obj).
    change (post_plan (with_errbuf (fun _ => text) obj))
      with (post_plan obj).
    cbn [errbuf_ with_errbuf].
    rewrite !(TranslateError_c_str _ _ _ _ Hb).
    unfold configured, request_plan in Hc. rewrite refusal_app in Hc.
    destruct (refusal T (pre_plan obj) =? CURLE_OK); cbn [negb]; [|done].
    rewrite Hc. cbn [negb]. done.
Qed.
